(** * The Armenian Global Game Jam launcher (launcher.py)

    A shallow embedding of the launcher script: the credential gate
    [check_api_key], the two launch strategies [run_with_gui] and [run_cli],
    the menu loop of [main] and the top-level interrupt handler.

    Python values are modelled as follows.
    - A [str] is its sequence of Unicode code points.
    - [os.environ] is a finite map from names to values.
    - The keyboard is the list of things successive calls of [input()] meet:
      a typed line, an interrupt (Ctrl+C), or the end of the stream.
    - Exceptions are an explicit result; [sys.exit(n)] raises [SystemExit n].
    - What lies outside the script (the file system, the platform, what the
      environment can hold, the fate of a spawned child, the rendering of
      library exceptions) is a [host]. *)

From Stdlib Require Import ZArith NArith String Ascii List Bool Lia.
From stdpp Require Import gmap list fin_maps.
Import ListNotations.

Local Open Scope N_scope.

(** ** Strings *)

Abbreviation str := (list N) (only parsing).

(** An ASCII literal of the source, as code points. *)
Fixpoint lit (s : string) : str :=
  match s with
  | EmptyString => []
  | String a r => N_of_ascii a :: lit r
  end.

(** The characters [str.strip()] removes: those for which CPython's
    [Py_UNICODE_ISSPACE] holds. *)
Definition isspace (c : N) : bool :=
     ((9 <=? c) && (c <=? 13))
  || ((28 <=? c) && (c <=? 32))
  || (c =? 133) || (c =? 160) || (c =? 5760)
  || ((8192 <=? c) && (c <=? 8202))
  || (c =? 8232) || (c =? 8233) || (c =? 8239) || (c =? 8287)
  || (c =? 12288).

Fixpoint lstrip (s : str) : str :=
  match s with
  | [] => []
  | c :: r => if isspace c then lstrip r else s
  end.

Definition rstrip (s : str) : str := rev (lstrip (rev s)).

Definition strip (s : str) : str := rstrip (lstrip s).

Fixpoint startswith (s prefix : str) {struct prefix} : bool :=
  match prefix, s with
  | [], _ => true
  | _ :: _, [] => false
  | p :: prefix', c :: s' => (c =? p) && startswith s' prefix'
  end.

(** Truth value of a string: [if api_key]. *)
Definition nonempty (s : str) : bool :=
  match s with [] => false | _ :: _ => true end.

(** [a == b] on strings. *)
Definition str_eqb (a b : str) : bool := bool_decide (a = b).

Infix "==" := str_eqb (at level 70, no associativity).

(** ** Paths: a [pathlib.Path] is its sequence of parts. *)

Abbreviation path := (list (list N)) (only parsing).

Definition joinpath (p : path) (name : str) : path := p ++ [name].

Infix "</>" := joinpath (at level 40, left associativity).

(** ** Exceptions and results *)

Inductive exn :=
| KeyboardInterrupt
| EOFError
| SystemExit (code : Z)
| CalledProcessError (returncode : Z) (cmd : list str)
| FileNotFoundError
| PermissionError
| OSError (errno : Z)          (* an OSError of another kind *)
| ValueError
| UnicodeEncodeError.

Inductive result (A : Type) :=
| Ret (a : A)
| Raise (e : exn).

Arguments Ret {A} a.
Arguments Raise {A} e.

(** ** The launcher's state *)

Record state := State {
  environ : gmap str str;            (* os.environ *)
  stdout : str;                      (* everything written so far *)
  launched : list (list str)         (* commands handed to subprocess.run *)
}.

(** What one call of [input()] meets. The empty keyboard is end of file. *)
Inductive key_event :=
| Line (s : str)
| CtrlC.

(** What happens to a command given to [subprocess.run]: the child runs
    and exits, or it cannot be started (no such file, no permission, another
    error of the operating system), or an interrupt arrives while the parent
    waits. *)
Inductive child :=
| Exited (returncode : Z)
| NotFound
| Interrupted
| Denied
| Failed (errno : Z).

Record host := Host {
  platform : str;                                   (* sys.platform *)
  executable : str;                                 (* sys.executable *)
  project_dir : path;                               (* Path(__file__).parent *)
  fspath : path -> str;                             (* str(path) *)
  path_exists : path -> bool;                       (* path.exists() *)
  spawn : list str -> gmap str str -> child;        (* command, inherited env *)
  CalledProcessError_str : Z -> list str -> str;    (* str(e) *)
  encodable : str -> bool;             (* os.environ can encode the value *)
  environ_fits : str -> str -> bool    (* name=value is within the size limit *)
}.

(** ** A state and exception monad *)

Definition M (A : Type) : Type := state -> result A * state.

Definition ret {A} (a : A) : M A := fun st => (Ret a, st).

Definition raise {A} (e : exn) : M A := fun st => (Raise e, st).

Definition bind {A B} (m : M A) (k : A -> M B) : M B :=
  fun st =>
    match m st with
    | (Ret a, st') => k a st'
    | (Raise e, st') => (Raise e, st')
    end.

(** [try: m  except ...: handler] ; the handler re-raises what it does not
    catch. *)
Definition try {A} (m : M A) (handler : exn -> M A) : M A :=
  fun st =>
    match m st with
    | (Ret a, st') => (Ret a, st')
    | (Raise e, st') => handler e st'
    end.

Declare Scope py_scope.
Delimit Scope py_scope with py.
Notation "x <- m ;; k" := (bind m (fun x => k))
  (at level 100, m at next level, right associativity) : py_scope.
Notation "m ;; k" := (bind m (fun _ => k))
  (at level 100, right associativity) : py_scope.
Local Open Scope py_scope.

(** The state after [t] has been written to standard output. *)
Definition writes (t : str) (st : state) : state :=
  State (environ st) (stdout st ++ t) (launched st).

Definition write (s : str) : M unit := fun st => (Ret tt, writes s st).

(** [print(s)] *)
Definition print (s : str) : M unit := write (s ++ [10]).

(** [os.environ.get(name)] *)
Definition getenv (name : str) : M (option str) :=
  fun st => (Ret (environ st !! name), st).

(** A string with a NUL character in it. *)
Definition has_nul (s : str) : bool := existsb (N.eqb 0) s.

(** What [os.environ[name] = value] raises, if anything: UnicodeEncodeError
    when the value cannot be encoded (the file system encoding with
    surrogateescape; nothing is encoded on Windows), then ValueError for an
    embedded NUL or, on Windows, for a variable that is too long. *)
Definition environ_setitem_error (h : host) (name value : str) : option exn :=
  if negb (encodable h value) then Some UnicodeEncodeError
  else if has_nul value || negb (environ_fits h name value) then Some ValueError
  else None.

(** [os.environ[name] = value] *)
Definition setenv (h : host) (name value : str) : M unit :=
  fun st =>
    match environ_setitem_error h name value with
    | Some e => (Raise e, st)
    | None =>
        (Ret tt, State (<[name := value]> (environ st)) (stdout st) (launched st))
    end.

(** [sys.exit(code)] *)
Definition sys_exit {A} (code : Z) : M A := raise (SystemExit code).

(** [input(prompt)], continuing with the line read and the keys left. *)
Definition input {A} (prompt : str) (stdin : list key_event)
    (k : str -> list key_event -> M A) : M A :=
  write prompt ;;
  match stdin with
  | [] => raise EOFError
  | CtrlC :: _ => raise KeyboardInterrupt
  | Line s :: rest => k s rest
  end.

(** [subprocess.run(cmd, check=True)] *)
Definition subprocess_run (h : host) (cmd : list str) : M unit :=
  fun st =>
    let st' := State (environ st) (stdout st) (launched st ++ [cmd]) in
    match spawn h cmd (environ st) with
    | Exited returncode =>
        if (returncode =? 0)%Z then (Ret tt, st')
        else (Raise (CalledProcessError returncode cmd), st')
    | NotFound => (Raise FileNotFoundError, st')
    | Interrupted => (Raise KeyboardInterrupt, st')
    | Denied => (Raise PermissionError, st')
    | Failed errno => (Raise (OSError errno), st')
    end.

(** ** The script *)

Definition GEMINI_API_KEY : str := lit "GEMINI_API_KEY".

Definition api_key_prompt : str :=
  lit "Enter your Gemini API key (or press Ctrl+C to exit): ".

(** One acceptance test of the prompt: [api_key and api_key.startswith("AIza")]. *)
Definition accepted (api_key : str) : bool :=
  nonempty api_key && startswith api_key (lit "AIza").

Definition print_rejection : M unit :=
  print (lit "Invalid API key format. API keys should start with 'AIza'") ;;
  print (lit "Please get a valid key from: https://aistudio.google.com/app/apikey") ;;
  print [].

(** The [while True] loop of [check_api_key]. It returns the key together
    with the keys not yet read. *)
Fixpoint api_key_loop (h : host) (stdin : list key_event)
    : M (str * list key_event) :=
  input api_key_prompt stdin (fun s rest =>
    let api_key := strip s in
    if accepted api_key then
      setenv h GEMINI_API_KEY api_key ;;
      print (10003 :: lit " API key accepted!") ;;
      print [] ;;
      ret (api_key, rest)
    else
      print_rejection ;;
      api_key_loop h rest).

Definition print_guidance : M unit :=
  print (lit "=== Armenian Global Game Jam Launcher ===") ;;
  print (lit "This game requires a Gemini API key to generate AI images.") ;;
  print (lit "Get your free API key from: https://aistudio.google.com/app/apikey") ;;
  print [].

Definition check_api_key (h : host) (stdin : list key_event)
    : M (str * list key_event) :=
  api_key <- getenv GEMINI_API_KEY ;;
  match api_key with
  | Some (c :: v) => ret (c :: v, stdin)
  | Some [] | None => print_guidance ;; api_key_loop h stdin
  end.

Section Launcher.

Variable h : host.

(** The platform-dependent choice of [run_with_gui]: the executable, the
    companion script and the shell. *)
Definition gui_paths (project_dir venv_dir : path) : path * path * str :=
  if platform h == lit "win32" then
    (venv_dir </> lit "Scripts" </> lit "pipedream-gui.exe",
     project_dir </> lit "pytrek-9000.sh",
     lit "bash")
  else
    (venv_dir </> lit "bin" </> lit "pipedream-gui",
     project_dir </> lit "pytrek-9000.sh",
     lit "bash").

Definition gui_command (pipedream_exe pytrek_script : path) (bash_cmd : str)
    : list str :=
  [ fspath h pipedream_exe;
    lit "--art-style";
    lit "StarTrek sci-fi game, orange monochrome";
    bash_cmd;
    fspath h pytrek_script ].

Definition run_with_gui : M unit :=
  print (127912 :: lit " Launching with AI visualization (PipeDream GUI)...") ;;
  let project_dir := project_dir h in
  let venv_dir := project_dir </> lit ".venv" in
  (if negb (path_exists h venv_dir) then
     print (lit "Error: Virtual environment not found. Run 'uv venv && uv pip install -e .' first.") ;;
     sys_exit 1
   else ret tt) ;;
  let '(pipedream_exe, pytrek_script, bash_cmd) := gui_paths project_dir venv_dir in
  (if negb (path_exists h pipedream_exe) then
     print (lit "Error: pipedream-gui not found at " ++ fspath h pipedream_exe) ;;
     sys_exit 1
   else ret tt) ;;
  let cmd := gui_command pipedream_exe pytrek_script bash_cmd in
  try (subprocess_run h cmd)
    (fun e =>
       match e with
       | CalledProcessError returncode c =>
           print (lit "Error running GUI: " ++ CalledProcessError_str h returncode c) ;;
           sys_exit 1
       | FileNotFoundError =>
           print (lit "Error: Required command not found") ;;
           sys_exit 1
       | _ => raise e
       end).

Definition run_cli : M unit :=
  print (128640 :: lit " Launching terminal-only version (PyTrek)...") ;;
  let project_dir := project_dir h in
  let pytrek_script := project_dir </> lit "pytrek_cli.py" in
  (if negb (path_exists h pytrek_script) then
     print (lit "Error: pytrek_cli.py not found at " ++ fspath h pytrek_script) ;;
     sys_exit 1
   else ret tt) ;;
  try (subprocess_run h [executable h; fspath h pytrek_script])
    (fun e =>
       match e with
       | CalledProcessError returncode c =>
           print (lit "Error running CLI: " ++ CalledProcessError_str h returncode c) ;;
           sys_exit 1
       | _ => raise e
       end).

Definition show_menu : M unit :=
  print (127918 :: lit " Select Game Mode:") ;;
  print (lit "1. Play with AI Visualization (Recommended)") ;;
  print (lit "2. Play Terminal-Only Version") ;;
  print (lit "3. Exit") ;;
  print [].

Definition choice_prompt : str := lit "Enter your choice (1-3): ".

Definition goodbye : str := lit "Goodbye! " ++ [128406].

Definition print_invalid_choice : M unit :=
  print (lit "Invalid choice. Please enter 1, 2, or 3.") ;;
  print [].

(** The [while True] loop of [main]; [break] ends the function. *)
Fixpoint menu_loop (stdin : list key_event) : M unit :=
  show_menu ;;
  input choice_prompt stdin (fun s rest =>
    let choice := strip s in
    if choice == lit "1" then run_with_gui
    else if choice == lit "2" then run_cli
    else if choice == lit "3" then print goodbye ;; sys_exit 0
    else print_invalid_choice ;; menu_loop rest).

Definition main (stdin : list key_event) : M unit :=
  r <- check_api_key h stdin ;;
  menu_loop (snd r).

(** The [if __name__ == "__main__"] block. *)
Definition script (stdin : list key_event) : M unit :=
  try (main stdin)
    (fun e =>
       match e with
       | KeyboardInterrupt => print ([10; 10] ++ goodbye) ;; sys_exit 0
       | _ => raise e
       end).

(** How the interpreter ends the process: a normal end of the script is
    status 0, [SystemExit n] is status [n], any other exception is an
    unhandled one. *)
Inductive outcome :=
| ExitStatus (code : Z)
| Unhandled (e : exn).

Definition interpreter_exit (r : result unit) : outcome :=
  match r with
  | Ret _ => ExitStatus 0
  | Raise (SystemExit code) => ExitStatus code
  | Raise e => Unhandled e
  end.

Definition run (stdin : list key_event) (st : state) : outcome * state :=
  let (r, st') := script stdin st in (interpreter_exit r, st').

End Launcher.

(** ** What the script writes *)

Definition guidance_text : str :=
  lit "=== Armenian Global Game Jam Launcher ===" ++ [10] ++
  lit "This game requires a Gemini API key to generate AI images." ++ [10] ++
  lit "Get your free API key from: https://aistudio.google.com/app/apikey" ++ [10] ++
  [10].

Definition accepted_text : str := (10003 :: lit " API key accepted!") ++ [10] ++ [10].

Definition rejection_text : str :=
  lit "Invalid API key format. API keys should start with 'AIza'" ++ [10] ++
  lit "Please get a valid key from: https://aistudio.google.com/app/apikey" ++ [10] ++
  [10].

Definition menu_text : str :=
  (127918 :: lit " Select Game Mode:") ++ [10] ++
  lit "1. Play with AI Visualization (Recommended)" ++ [10] ++
  lit "2. Play Terminal-Only Version" ++ [10] ++
  lit "3. Exit" ++ [10] ++
  [10].

Definition invalid_choice_text : str :=
  lit "Invalid choice. Please enter 1, 2, or 3." ++ [10] ++ [10].

Definition gui_banner : str :=
  (127912 :: lit " Launching with AI visualization (PipeDream GUI)...") ++ [10].

Definition cli_banner : str :=
  (128640 :: lit " Launching terminal-only version (PyTrek)...") ++ [10].

Definition farewell_on_interrupt : str := [10; 10] ++ goodbye ++ [10].

(** The state after a command has been handed to [subprocess.run]. *)
Definition launches (cmd : list str) (st : state) : state :=
  State (environ st) (stdout st) (launched st ++ [cmd]).

(** The environment holds a usable key: [not api_key] is false. *)
Definition has_api_key (st : state) : Prop :=
  exists c v, environ st !! GEMINI_API_KEY = Some (c :: v).

(** The paths and the command of the two strategies on a host. *)
Definition venv_dir (h : host) : path := project_dir h </> lit ".venv".

Definition pipedream_exe (h : host) : path :=
  fst (fst (gui_paths h (project_dir h) (venv_dir h))).

Definition gui_cmd (h : host) : list str :=
  let '(exe, script, bash_cmd) := gui_paths h (project_dir h) (venv_dir h) in
  gui_command h exe script bash_cmd.

Definition cli_script (h : host) : path := project_dir h </> lit "pytrek_cli.py".

Definition cli_cmd (h : host) : list str := [executable h; fspath h (cli_script h)].

(** ** A concrete host for examples: a POSIX system with the project in
    [/game], a given file system and a given fate of the child. *)

Definition posix_fspath (p : path) : str := concat (map (fun part => 47 :: part) p).

Definition demo_host (present : path -> bool) (fate : child) : host :=
  Host (lit "linux") (lit "/usr/bin/python3") [lit "game"] posix_fspath present
       (fun _ _ => fate)
       (fun _ cmd => lit "Command " ++ concat cmd ++ lit " returned non-zero exit status")
       (fun _ => true) (fun _ _ => true).

Definition everything_present : path -> bool := fun _ => true.

Definition nothing_present : path -> bool := fun _ => false.

(** A fresh process without the key, and one that inherited a key. *)
Definition fresh : state := State ∅ [] [].

Definition keyed : state := State {[ GEMINI_API_KEY := lit "AIzaSy" ]} [] [].

(** The environment lacks a usable key: [not api_key] is true. *)
Definition lacks_api_key (st : state) : Prop :=
  environ st !! GEMINI_API_KEY = None \/ environ st !! GEMINI_API_KEY = Some [].

Definition venv_missing_text : str :=
  lit "Error: Virtual environment not found. Run 'uv venv && uv pip install -e .' first."
  ++ [10].

Definition exe_missing_text (h : host) : str :=
  lit "Error: pipedream-gui not found at " ++ fspath h (pipedream_exe h) ++ [10].

Definition script_missing_text (h : host) : str :=
  lit "Error: pytrek_cli.py not found at " ++ fspath h (cli_script h) ++ [10].

Definition gui_failed_text (h : host) (returncode : Z) : str :=
  lit "Error running GUI: " ++ CalledProcessError_str h returncode (gui_cmd h) ++ [10].

Definition cli_failed_text (h : host) (returncode : Z) : str :=
  lit "Error running CLI: " ++ CalledProcessError_str h returncode (cli_cmd h) ++ [10].

Definition command_not_found_text : str := lit "Error: Required command not found" ++ [10].

(** [n] copies of a text, one per round of a loop. *)
Definition rounds (n : nat) (t : str) : str := concat (repeat t n).

(** A line the credential prompt turns down, and one the menu turns down. *)
Definition rejected_line (s : str) : Prop := accepted (strip s) = false.

Definition invalid_choice (s : str) : Prop :=
  strip s <> lit "1" /\ strip s <> lit "2" /\ strip s <> lit "3".

(** How a run of [main] ends the process: the handler of the [__main__]
    block followed by the interpreter's exit. *)
Definition ends (r : result unit * state) : outcome * state :=
  match r with
  | (Ret _, st') => (ExitStatus 0, st')
  | (Raise KeyboardInterrupt, st') => (ExitStatus 0, writes farewell_on_interrupt st')
  | (Raise (SystemExit code), st') => (ExitStatus code, st')
  | (Raise e, st') => (Unhandled e, st')
  end.

(** A key the prompt accepts: non-empty and starting with the marker. *)
Definition well_formed_key (k : str) : Prop :=
  k <> [] /\ exists t, k = lit "AIza" ++ t.

(** The prompt takes the line [s] at once: the stripped line is written to
    the environment and returned. *)
Definition accepts_at_once (h : host) (s : str) : Prop :=
  forall rest st,
    api_key_loop h (Line s :: rest) st =
    (Ret (strip s, rest),
     State (<[GEMINI_API_KEY := strip s]> (environ st))
           (stdout st ++ api_key_prompt ++ accepted_text) (launched st)).

(** The prompt turns the line [s] down: it prints the diagnostic and goes
    round again, which starts with the prompt. *)
Definition rejects_and_reprompts (h : host) (s : str) : Prop :=
  forall rest st,
    let st' := writes (api_key_prompt ++ rejection_text) st in
    api_key_loop h (Line s :: rest) st = api_key_loop h rest st'
    /\ exists t, stdout (snd (api_key_loop h rest st')) = stdout st' ++ api_key_prompt ++ t.

(** The environment of the host can hold the key [k]. *)
Definition storable (h : host) (k : str) : Prop :=
  environ_setitem_error h GEMINI_API_KEY k = None.

(** The menu turns the line [s] down: it prints the error and goes round
    again, which starts with the menu; nothing is launched in between. *)
Definition menu_turns_down (h : host) (s : str) : Prop :=
  forall rest st,
    let st' := writes (menu_text ++ choice_prompt ++ invalid_choice_text) st in
    menu_loop h (Line s :: rest) st = menu_loop h rest st'
    /\ launched st' = launched st
    /\ exists t, stdout (snd (menu_loop h rest st'))
                 = stdout st' ++ menu_text ++ choice_prompt ++ t.

(** A file system where only the [.venv] directory of the demo project exists. *)
Definition only_venv_present : path -> bool :=
  fun p => bool_decide (p = [lit "game"; lit ".venv"]).

(** The exceptions that can come out of [main]: a SystemExit carries 0 or 1,
    and a CalledProcessError never comes out. *)
Definition leaves_main (e : exn) : Prop :=
  match e with
  | SystemExit code => code = 0%Z \/ code = 1%Z
  | CalledProcessError _ _ => False
  | _ => True
  end.

Definition ends_well {A} (r : result A) : Prop :=
  match r with
  | Ret _ => True
  | Raise e => leaves_main e
  end.

(** The exception [subprocess.run] raises for a child that cannot be started
    for another reason than a missing file. *)
Definition start_error (c : child) : option exn :=
  match c with
  | Denied => Some PermissionError
  | Failed errno => Some (OSError errno)
  | _ => None
  end.

(** * Properties *)

(** ** Strings *)

Lemma startswith_spec (s prefix : str) :
  startswith s prefix = true <-> exists t, s = prefix ++ t.
Proof.
  revert s. induction prefix as [|p prefix IH]; intros s; simpl.
  - split; [intros _; exists s; reflexivity | reflexivity].
  - destruct s as [|c s].
    + split; [discriminate | intros [t Ht]; discriminate].
    + rewrite andb_true_iff, N.eqb_eq, IH. split.
      * intros [-> [t ->]]. exists t. reflexivity.
      * intros [t Ht]. injection Ht as -> ->. split; [reflexivity | exists t; reflexivity].
Qed.

Lemma nonempty_spec (s : str) : nonempty s = true <-> s <> [].
Proof. destruct s; simpl; split; congruence. Qed.

Lemma accepted_spec (api_key : str) :
  accepted api_key = true <->
  api_key <> [] /\ exists t, api_key = lit "AIza" ++ t.
Proof.
  unfold accepted. rewrite andb_true_iff, nonempty_spec, startswith_spec.
  reflexivity.
Qed.

Lemma str_eqb_eq (a b : str) : (a == b) = true <-> a = b.
Proof. unfold str_eqb. rewrite bool_decide_eq_true. reflexivity. Qed.

Lemma str_eqb_neq (a b : str) : (a == b) = false <-> a <> b.
Proof. unfold str_eqb. rewrite bool_decide_eq_false. reflexivity. Qed.

(** Leading white space is dropped, and nothing else. *)
Lemma lstrip_spaces (ws s : str) :
  forallb isspace ws = true -> lstrip (ws ++ s) = lstrip s.
Proof.
  induction ws as [|c ws IH]; simpl; [reflexivity |].
  intros H. apply andb_true_iff in H as [Hc Hws]. rewrite Hc. auto.
Qed.

Lemma lstrip_all_spaces (ws : str) : forallb isspace ws = true -> lstrip ws = [].
Proof.
  intros H. rewrite <- (app_nil_r ws). rewrite lstrip_spaces by assumption.
  reflexivity.
Qed.

Lemma lstrip_solid (c : N) (s : str) : isspace c = false -> lstrip (c :: s) = c :: s.
Proof. intros H. simpl. rewrite H. reflexivity. Qed.

(** A string neither starting nor ending with white space. *)
Definition trimmed (s : str) : bool :=
  match s with [] => true | c :: _ => negb (isspace c) end
  && match rev s with [] => true | c :: _ => negb (isspace c) end.

(** [strip] removes exactly the surrounding white space. *)
Lemma strip_padded (l core r : str) :
  forallb isspace l = true -> forallb isspace r = true -> trimmed core = true ->
  strip (l ++ core ++ r) = core.
Proof.
  intros Hl Hr Hc. unfold strip, rstrip. rewrite lstrip_spaces by assumption.
  apply andb_true_iff in Hc as [Hhd Htl].
  destruct core as [|c core].
  - simpl. rewrite (lstrip_all_spaces r) by assumption. simpl. reflexivity.
  - apply negb_true_iff in Hhd. rewrite <- app_comm_cons, lstrip_solid by assumption.
    rewrite app_comm_cons, rev_app_distr, lstrip_spaces
      by (rewrite forallb_forall in *; intros x Hx; apply Hr, in_rev, Hx).
    destruct (rev (c :: core)) as [|z k] eqn:E.
    + apply (f_equal (@length N)) in E. rewrite length_rev in E. discriminate.
    + apply negb_true_iff in Htl. rewrite lstrip_solid by assumption.
      rewrite <- E. apply rev_involutive.
Qed.

Lemma lstrip_head (s : str) :
  match lstrip s with [] => True | c :: _ => isspace c = false end.
Proof.
  induction s as [|c s IH]; simpl; [exact I |].
  destruct (isspace c) eqn:E; [exact IH | exact E].
Qed.

Lemma lstrip_suffix (s : str) : exists ws, s = ws ++ lstrip s /\ forallb isspace ws = true.
Proof.
  induction s as [|c s [ws [E H]]]; simpl.
  - exists []. split; reflexivity.
  - destruct (isspace c) eqn:Hc.
    + exists (c :: ws). simpl. rewrite Hc, H. split; [congruence | reflexivity].
    + exists []. split; reflexivity.
Qed.

(** The result of [strip] is the input without some white space on the left
    and on the right, and it is trimmed. *)
Lemma strip_spec (s : str) :
  exists l r, s = l ++ strip s ++ r /\ forallb isspace l = true
              /\ forallb isspace r = true /\ trimmed (strip s) = true.
Proof.
  destruct (lstrip_suffix s) as [l [El Hl]].
  destruct (lstrip_suffix (rev (lstrip s))) as [r' [Er Hr]].
  exists l, (rev r'). unfold strip, rstrip.
  assert (Hmid : lstrip s = rev (lstrip (rev (lstrip s))) ++ rev r').
  { rewrite <- rev_app_distr, <- Er, rev_involutive. reflexivity. }
  split; [rewrite <- Hmid; exact El |].
  split; [exact Hl |].
  split.
  { rewrite forallb_forall in *. intros x Hx. apply Hr, in_rev. exact Hx. }
  unfold trimmed. rewrite rev_involutive.
  pose proof (lstrip_head (rev (lstrip s))) as Hlast.
  apply andb_true_iff. split.
  - destruct (rev (lstrip (rev (lstrip s)))) as [|c k] eqn:E; [reflexivity |].
    apply negb_true_iff.
    pose proof (lstrip_head s) as Hfirst. rewrite Hmid in Hfirst. exact Hfirst.
  - destruct (lstrip (rev (lstrip s))) as [|c k]; [reflexivity |].
    apply negb_true_iff. exact Hlast.
Qed.

(** ** Statements, one step at a time *)

Lemma writes_writes (a b : str) (st : state) :
  writes b (writes a st) = writes (a ++ b) st.
Proof. unfold writes. simpl. rewrite <- app_assoc. reflexivity. Qed.

Lemma writes_stdout (t : str) (st : state) :
  writes t st = State (environ st) (stdout st ++ t) (launched st).
Proof. reflexivity. Qed.

Ltac run_prints :=
  cbv beta iota zeta delta [bind print write ret raise sys_exit try negb];
  rewrite ?writes_writes.

Lemma print_guidance_eq (st : state) :
  print_guidance st = (Ret tt, writes guidance_text st).
Proof. unfold print_guidance. run_prints. reflexivity. Qed.

Lemma print_rejection_eq (st : state) :
  print_rejection st = (Ret tt, writes rejection_text st).
Proof. unfold print_rejection. run_prints. reflexivity. Qed.

Lemma show_menu_eq (st : state) : show_menu st = (Ret tt, writes menu_text st).
Proof. unfold show_menu. run_prints. reflexivity. Qed.

Lemma print_invalid_choice_eq (st : state) :
  print_invalid_choice st = (Ret tt, writes invalid_choice_text st).
Proof. unfold print_invalid_choice. run_prints. reflexivity. Qed.

Section Gate.

Variable h : host.

(** The credential prompt on a typed line. *)
Lemma api_key_loop_line (s : str) (rest : list key_event) (st : state) :
  api_key_loop h (Line s :: rest) st =
  if accepted (strip s) then
    match environ_setitem_error h GEMINI_API_KEY (strip s) with
    | Some e => (Raise e, writes api_key_prompt st)
    | None =>
        (Ret (strip s, rest),
         State (<[GEMINI_API_KEY := strip s]> (environ st))
               (stdout st ++ api_key_prompt ++ accepted_text) (launched st))
    end
  else api_key_loop h rest (writes (api_key_prompt ++ rejection_text) st).
Proof.
  cbn [api_key_loop]. unfold input at 1.
  destruct (accepted (strip s)).
  - unfold bind at 1, write at 1, bind at 1, setenv at 1.
    destruct (environ_setitem_error h GEMINI_API_KEY (strip s)); [reflexivity |].
    cbv beta iota delta [bind print write ret writes environ stdout launched].
    rewrite <- !app_assoc. reflexivity.
  - unfold bind at 1. unfold write at 1. unfold bind at 1.
    rewrite print_rejection_eq, writes_writes. reflexivity.
Qed.

(** On a line whose stripped form the environment can hold. *)
Lemma api_key_loop_storable (s : str) (rest : list key_event) (st : state) :
  storable h (strip s) ->
  api_key_loop h (Line s :: rest) st =
  if accepted (strip s) then
    (Ret (strip s, rest),
     State (<[GEMINI_API_KEY := strip s]> (environ st))
           (stdout st ++ api_key_prompt ++ accepted_text) (launched st))
  else api_key_loop h rest (writes (api_key_prompt ++ rejection_text) st).
Proof. intros H. rewrite api_key_loop_line, H. reflexivity. Qed.

(** The credential prompt at an interrupt and at the end of the input. *)
Lemma api_key_loop_interrupt (rest : list key_event) (st : state) :
  api_key_loop h (CtrlC :: rest) st = (Raise KeyboardInterrupt, writes api_key_prompt st).
Proof. reflexivity. Qed.

Lemma api_key_loop_eof (st : state) :
  api_key_loop h [] st = (Raise EOFError, writes api_key_prompt st).
Proof. reflexivity. Qed.

(** [check_api_key] with and without a usable key in the environment. *)
Lemma check_api_key_present (stdin : list key_event) (st : state) (c : N) (v : str) :
  environ st !! GEMINI_API_KEY = Some (c :: v) ->
  check_api_key h stdin st = (Ret (c :: v, stdin), st).
Proof.
  intros H. unfold check_api_key, bind, getenv. rewrite H. reflexivity.
Qed.

Lemma check_api_key_absent (stdin : list key_event) (st : state) :
  lacks_api_key st ->
  check_api_key h stdin st = api_key_loop h stdin (writes guidance_text st).
Proof.
  intros [H | H]; unfold check_api_key, getenv; unfold bind at 1; rewrite H;
    unfold bind; rewrite print_guidance_eq; reflexivity.
Qed.

(** What [os.environ] refuses, it refuses with one of two exceptions. *)
Lemma environ_setitem_error_cases (name value : str) (e : exn) :
  environ_setitem_error h name value = Some e ->
  e = UnicodeEncodeError \/ e = ValueError.
Proof.
  unfold environ_setitem_error. destruct (negb (encodable h value)).
  - intros [= <-]. auto.
  - destruct (has_nul value || negb (environ_fits h name value)); [| discriminate].
    intros [= <-]. auto.
Qed.

(** A value with a NUL character is never stored. *)
Lemma nul_is_not_storable (value : str) : has_nul value = true -> ~ storable h value.
Proof.
  unfold storable, environ_setitem_error. intros H. rewrite H.
  destruct (negb (encodable h value)); discriminate.
Qed.

End Gate.

Lemma key_or_not (st : state) : has_api_key st \/ lacks_api_key st.
Proof.
  unfold has_api_key, lacks_api_key.
  destruct (environ st !! GEMINI_API_KEY) as [[|c v]|]; eauto.
Qed.

(** ** The launch strategies, case by case *)

Section Strategies.

Variable h : host.

Lemma subprocess_run_eq (cmd : list str) (st : state) :
  subprocess_run h cmd st =
  match spawn h cmd (environ st) with
  | Exited returncode =>
      if (returncode =? 0)%Z then (Ret tt, launches cmd st)
      else (Raise (CalledProcessError returncode cmd), launches cmd st)
  | NotFound => (Raise FileNotFoundError, launches cmd st)
  | Interrupted => (Raise KeyboardInterrupt, launches cmd st)
  | Denied => (Raise PermissionError, launches cmd st)
  | Failed errno => (Raise (OSError errno), launches cmd st)
  end.
Proof. reflexivity. Qed.

Lemma run_with_gui_no_venv (st : state) :
  path_exists h (venv_dir h) = false ->
  run_with_gui h st =
  (Raise (SystemExit 1), writes (gui_banner ++ venv_missing_text) st).
Proof.
  intros H. unfold run_with_gui. fold (venv_dir h). rewrite H.
  run_prints. reflexivity.
Qed.

Lemma run_with_gui_no_exe (st : state) :
  path_exists h (venv_dir h) = true ->
  path_exists h (pipedream_exe h) = false ->
  run_with_gui h st =
  (Raise (SystemExit 1), writes (gui_banner ++ exe_missing_text h) st).
Proof.
  intros Hv He. unfold run_with_gui. fold (venv_dir h). rewrite Hv.
  unfold exe_missing_text, pipedream_exe in *.
  destruct (gui_paths h (project_dir h) (venv_dir h)) as [[exe script] bash_cmd].
  simpl in He. simpl negb. cbv iota. rewrite He.
  run_prints. reflexivity.
Qed.

Lemma run_with_gui_spawns (st : state) :
  path_exists h (venv_dir h) = true ->
  path_exists h (pipedream_exe h) = true ->
  run_with_gui h st =
  let st1 := launches (gui_cmd h) (writes gui_banner st) in
  match spawn h (gui_cmd h) (environ st) with
  | Exited returncode =>
      if (returncode =? 0)%Z then (Ret tt, st1)
      else (Raise (SystemExit 1), writes (gui_failed_text h returncode) st1)
  | NotFound => (Raise (SystemExit 1), writes command_not_found_text st1)
  | Interrupted => (Raise KeyboardInterrupt, st1)
  | Denied => (Raise PermissionError, st1)
  | Failed errno => (Raise (OSError errno), st1)
  end.
Proof.
  intros Hv He. unfold run_with_gui. fold (venv_dir h). rewrite Hv.
  unfold gui_failed_text, gui_cmd, pipedream_exe in *.
  destruct (gui_paths h (project_dir h) (venv_dir h)) as [[exe script] bash_cmd].
  simpl in He. simpl negb. cbv iota. rewrite He.
  cbv beta iota zeta delta [bind print write ret try negb].
  rewrite subprocess_run_eq. cbn [environ writes].
  destruct (spawn h _ (environ st)) as [returncode | | | | errno]; [| reflexivity ..].
  destruct (returncode =? 0)%Z; reflexivity.
Qed.

Lemma run_cli_no_script (st : state) :
  path_exists h (cli_script h) = false ->
  run_cli h st =
  (Raise (SystemExit 1), writes (cli_banner ++ script_missing_text h) st).
Proof.
  intros H. unfold run_cli. fold (cli_script h). rewrite H.
  run_prints. reflexivity.
Qed.

Lemma run_cli_spawns (st : state) :
  path_exists h (cli_script h) = true ->
  run_cli h st =
  let st1 := launches (cli_cmd h) (writes cli_banner st) in
  match spawn h (cli_cmd h) (environ st) with
  | Exited returncode =>
      if (returncode =? 0)%Z then (Ret tt, st1)
      else (Raise (SystemExit 1), writes (cli_failed_text h returncode) st1)
  | NotFound => (Raise FileNotFoundError, st1)
  | Interrupted => (Raise KeyboardInterrupt, st1)
  | Denied => (Raise PermissionError, st1)
  | Failed errno => (Raise (OSError errno), st1)
  end.
Proof.
  intros H. unfold run_cli. fold (cli_script h). rewrite H.
  cbv beta iota zeta delta [bind print write ret try negb].
  fold (cli_cmd h). rewrite subprocess_run_eq. cbn [environ writes].
  destruct (spawn h _ (environ st)) as [returncode | | | | errno]; [| reflexivity ..].
  destruct (returncode =? 0)%Z; reflexivity.
Qed.

End Strategies.

(** ** The menu loop and the whole script *)

Section Script.

Variable h : host.

Lemma menu_loop_line (s : str) (rest : list key_event) (st : state) :
  menu_loop h (Line s :: rest) st =
  let st1 := writes (menu_text ++ choice_prompt) st in
  if strip s == lit "1" then run_with_gui h st1
  else if strip s == lit "2" then run_cli h st1
  else if strip s == lit "3" then (Raise (SystemExit 0), writes (goodbye ++ [10]) st1)
  else menu_loop h rest (writes invalid_choice_text st1).
Proof.
  cbn [menu_loop]. unfold input at 1.
  unfold bind at 1. rewrite show_menu_eq. unfold bind at 1, write at 1.
  rewrite writes_writes. cbv zeta.
  destruct (strip s == lit "1"); [reflexivity |].
  destruct (strip s == lit "2"); [reflexivity |].
  destruct (strip s == lit "3"); [reflexivity |].
  unfold bind at 1. rewrite print_invalid_choice_eq. reflexivity.
Qed.

Lemma menu_loop_interrupt (rest : list key_event) (st : state) :
  menu_loop h (CtrlC :: rest) st =
  (Raise KeyboardInterrupt, writes (menu_text ++ choice_prompt) st).
Proof.
  cbn [menu_loop]. unfold input. unfold bind at 1. rewrite show_menu_eq.
  unfold bind, write, raise. rewrite writes_writes. reflexivity.
Qed.

Lemma menu_loop_eof (st : state) :
  menu_loop h [] st = (Raise EOFError, writes (menu_text ++ choice_prompt) st).
Proof.
  cbn [menu_loop]. unfold input. unfold bind at 1. rewrite show_menu_eq.
  unfold bind, write, raise. rewrite writes_writes. reflexivity.
Qed.

Lemma menu_loop_invalid (s : str) (rest : list key_event) (st : state) :
  invalid_choice s ->
  menu_loop h (Line s :: rest) st =
  menu_loop h rest (writes (menu_text ++ choice_prompt ++ invalid_choice_text) st).
Proof.
  intros (H1 & H2 & H3). rewrite menu_loop_line. cbv zeta.
  apply str_eqb_neq in H1, H2, H3. rewrite H1, H2, H3.
  rewrite writes_writes, <- app_assoc. reflexivity.
Qed.

Lemma writes_nil (st : state) : writes [] st = st.
Proof. destruct st. unfold writes. simpl. rewrite app_nil_r. reflexivity. Qed.

Lemma rounds_S (n : nat) (t : str) : rounds (S n) t = t ++ rounds n t.
Proof. reflexivity. Qed.

(** Lines the menu turns down only make it come round again. *)
Lemma menu_loop_invalid_prefix (pre : list str) (rest : list key_event) (st : state) :
  Forall invalid_choice pre ->
  menu_loop h (map Line pre ++ rest) st =
  menu_loop h rest
    (writes (rounds (length pre) (menu_text ++ choice_prompt ++ invalid_choice_text)) st).
Proof.
  intros H. revert st. induction H as [|s pre Hs _ IH]; intros st.
  - simpl. rewrite writes_nil. reflexivity.
  - cbn [map app length]. rewrite menu_loop_invalid by assumption.
    rewrite IH, writes_writes, rounds_S. reflexivity.
Qed.

Lemma api_key_loop_rejected (s : str) (rest : list key_event) (st : state) :
  rejected_line s ->
  api_key_loop h (Line s :: rest) st =
  api_key_loop h rest (writes (api_key_prompt ++ rejection_text) st).
Proof. intros H. rewrite api_key_loop_line, H. reflexivity. Qed.

Lemma api_key_loop_rejected_prefix (pre : list str) (rest : list key_event) (st : state) :
  Forall rejected_line pre ->
  api_key_loop h (map Line pre ++ rest) st =
  api_key_loop h rest (writes (rounds (length pre) (api_key_prompt ++ rejection_text)) st).
Proof.
  intros H. revert st. induction H as [|s pre Hs _ IH]; intros st.
  - simpl. rewrite writes_nil. reflexivity.
  - cbn [map app length]. rewrite api_key_loop_rejected by assumption.
    rewrite IH, writes_writes, rounds_S. reflexivity.
Qed.

Lemma main_eq (stdin : list key_event) (st : state) :
  main h stdin st =
  match check_api_key h stdin st with
  | (Ret r, st') => menu_loop h (snd r) st'
  | (Raise e, st') => (Raise e, st')
  end.
Proof. reflexivity. Qed.

Lemma main_with_key (stdin : list key_event) (st : state) :
  has_api_key st -> main h stdin st = menu_loop h stdin st.
Proof.
  intros (c & v & H). rewrite main_eq, (check_api_key_present h _ _ _ _ H).
  reflexivity.
Qed.

Lemma run_eq (stdin : list key_event) (st : state) :
  run h stdin st = ends (main h stdin st).
Proof.
  unfold run, script, try, ends. destruct (main h stdin st) as [[[]|e] st']; [reflexivity |].
  destruct e; reflexivity.
Qed.

(** Once the gate has let the script through, the menu decides. *)
Lemma run_after_gate (stdin rest : list key_event) (st st1 : state) (k : str) :
  check_api_key h stdin st = (Ret (k, rest), st1) ->
  run h stdin st = ends (menu_loop h rest st1).
Proof. intros H. rewrite run_eq, main_eq, H. reflexivity. Qed.

(** Each strategy only adds to what has been written. *)
Lemma run_with_gui_appends (st : state) :
  exists t, stdout (snd (run_with_gui h st)) = stdout st ++ t.
Proof.
  destruct (path_exists h (venv_dir h)) eqn:Hv.
  - destruct (path_exists h (pipedream_exe h)) eqn:He.
    + rewrite run_with_gui_spawns by assumption. cbv zeta.
      destruct (spawn h _ _) as [rc | | | | errno]; [destruct (rc =? 0)%Z | | | |];
        simpl; rewrite <- ?app_assoc; eauto.
    + rewrite run_with_gui_no_exe by assumption. simpl. eauto.
  - rewrite run_with_gui_no_venv by assumption. simpl. eauto.
Qed.

Lemma run_cli_appends (st : state) :
  exists t, stdout (snd (run_cli h st)) = stdout st ++ t.
Proof.
  destruct (path_exists h (cli_script h)) eqn:Hs.
  - rewrite run_cli_spawns by assumption. cbv zeta.
    destruct (spawn h _ _) as [rc | | | | errno]; [destruct (rc =? 0)%Z | | | |];
      simpl; rewrite <- ?app_assoc; eauto.
  - rewrite run_cli_no_script by assumption. simpl. eauto.
Qed.

(** After the menu and the prompt, a round of the menu only adds to the
    output, whatever it reads. *)
Lemma menu_loop_shows_menu (stdin : list key_event) (st : state) :
  exists t, stdout (snd (menu_loop h stdin st))
            = stdout st ++ menu_text ++ choice_prompt ++ t.
Proof.
  revert st. induction stdin as [|[s|] rest IH]; intros st.
  - rewrite menu_loop_eof. exists []. cbn [stdout writes snd]. rewrite app_nil_r. reflexivity.
  - rewrite menu_loop_line. cbv zeta.
    set (st1 := writes (menu_text ++ choice_prompt) st).
    assert (H1 : forall t, stdout st1 ++ t = stdout st ++ menu_text ++ choice_prompt ++ t).
    { intros t. subst st1. simpl. rewrite <- !app_assoc. reflexivity. }
    destruct (strip s == lit "1").
    { destruct (run_with_gui_appends st1) as [t Ht]. rewrite Ht, H1. eauto. }
    destruct (strip s == lit "2").
    { destruct (run_cli_appends st1) as [t Ht]. rewrite Ht, H1. eauto. }
    destruct (strip s == lit "3").
    { exists (goodbye ++ [10]). apply H1. }
    destruct (IH (writes invalid_choice_text st1)) as [t Ht].
    rewrite Ht. change (stdout (writes invalid_choice_text st1))
      with (stdout st1 ++ invalid_choice_text).
    rewrite <- app_assoc, H1. eauto.
  - rewrite menu_loop_interrupt. exists []. cbn [stdout writes snd].
    rewrite app_nil_r. reflexivity.
Qed.

End Script.

Section GateFacts.

Variable h : host.

(** Every round of the credential prompt starts with the prompt. *)
Lemma api_key_loop_prompts (stdin : list key_event) (st : state) :
  exists t, stdout (snd (api_key_loop h stdin st)) = stdout st ++ api_key_prompt ++ t.
Proof.
  revert st. induction stdin as [|[s|] rest IH]; intros st.
  - rewrite api_key_loop_eof. exists []. cbn [stdout writes snd]. rewrite app_nil_r. reflexivity.
  - rewrite api_key_loop_line. destruct (accepted (strip s)).
    + destruct (environ_setitem_error h GEMINI_API_KEY (strip s)).
      * exists []. cbn [stdout writes snd]. rewrite app_nil_r. reflexivity.
      * simpl. eauto.
    + destruct (IH (writes (api_key_prompt ++ rejection_text) st)) as [t Ht].
      rewrite Ht. cbn [stdout writes]. rewrite <- !app_assoc. eauto.
  - rewrite api_key_loop_interrupt. exists []. cbn [stdout writes snd].
    rewrite app_nil_r. reflexivity.
Qed.

(** What the credential prompt returns was accepted and is in the environment;
    nothing has been launched. *)
Lemma api_key_loop_returns (stdin rest : list key_event) (st st' : state) (v : str) :
  api_key_loop h stdin st = (Ret (v, rest), st') ->
  environ st' !! GEMINI_API_KEY = Some v /\ accepted v = true
  /\ launched st' = launched st.
Proof.
  revert st. induction stdin as [|[s|] stdin IH]; intros st H.
  - rewrite api_key_loop_eof in H. discriminate.
  - rewrite api_key_loop_line in H. destruct (accepted (strip s)) eqn:E.
    + destruct (environ_setitem_error h GEMINI_API_KEY (strip s)); [discriminate |].
      injection H as <- <- <-. simpl. rewrite lookup_insert_eq. auto.
    + apply IH in H. exact H.
  - rewrite api_key_loop_interrupt in H. discriminate.
Qed.

End GateFacts.

(** The two launching branches of the menu. *)
Lemma menu_loop_gui (h : host) (s : str) (rest : list key_event) (st : state) :
  strip s = lit "1" ->
  menu_loop h (Line s :: rest) st = run_with_gui h (writes (menu_text ++ choice_prompt) st).
Proof. intros H. rewrite menu_loop_line, H. reflexivity. Qed.

Lemma menu_loop_cli (h : host) (s : str) (rest : list key_event) (st : state) :
  strip s = lit "2" ->
  menu_loop h (Line s :: rest) st = run_cli h (writes (menu_text ++ choice_prompt) st).
Proof. intros H. rewrite menu_loop_line, H. reflexivity. Qed.

(** * The credential gate *)

Section CredentialGate.

Variable h : host.

(** C1, as amended. For every line read at the credential prompt, the
    stripped line passes the test exactly when it is non-empty and starts
    with "AIza". A line that passes, and whose stripped form the environment
    can hold, is written to the environment under GEMINI_API_KEY and
    returned; a line that does not pass gets the diagnostic and the prompt is
    issued again. *)
Theorem api_key_prompt_accepts_iff_well_formed (s : str) :
  (storable h (strip s) -> (accepts_at_once h s <-> well_formed_key (strip s)))
  /\ (rejects_and_reprompts h s <-> ~ well_formed_key (strip s)).
Proof.
  unfold well_formed_key. rewrite <- accepted_spec. split.
  - intros Hst. split.
    + intros H. destruct (accepted (strip s)) eqn:E; [reflexivity |].
      specialize (H [] fresh).
      rewrite api_key_loop_line, E, api_key_loop_eof in H. discriminate.
    + intros E rest st. rewrite api_key_loop_storable, E by assumption. reflexivity.
  - split.
    + intros H E. destruct (H [] fresh) as [H' _].
      rewrite api_key_loop_line, E, api_key_loop_eof in H'.
      destruct (environ_setitem_error h GEMINI_API_KEY (strip s)) as [e|] eqn:Hs;
        [| discriminate].
      apply environ_setitem_error_cases in Hs as [-> | ->]; discriminate.
    + intros E rest st. apply not_true_is_false in E. split.
      * rewrite api_key_loop_line, E. reflexivity.
      * apply api_key_loop_prompts.
Qed.

(** C7. A non-empty GEMINI_API_KEY found in the environment is returned as it
    is, whatever its form: nothing is read, nothing is written, and the
    environment stays as it was. *)
Theorem preset_key_returned_unchanged
    (stdin : list key_event) (st : state) (v : str) :
  environ st !! GEMINI_API_KEY = Some v ->
  v <> [] ->
  check_api_key h stdin st = (Ret (v, stdin), st).
Proof.
  intros H Hv. destruct v as [|c v]; [congruence |].
  apply check_api_key_present. exact H.
Qed.

(** C9. Whenever [check_api_key] returns, GEMINI_API_KEY is set in the
    environment to the returned value, which is not empty; and when it came
    from the prompt, not from the environment, it starts with "AIza". *)
Theorem returned_key_is_in_environ
    (stdin rest : list key_event) (st st' : state) (v : str) :
  check_api_key h stdin st = (Ret (v, rest), st') ->
  environ st' !! GEMINI_API_KEY = Some v
  /\ v <> []
  /\ (lacks_api_key st -> exists t, v = lit "AIza" ++ t).
Proof.
  intros H. destruct (key_or_not st) as [(c & k & Hk) | Hno].
  - rewrite (check_api_key_present h _ _ _ _ Hk) in H. injection H as <- <- <-.
    split; [exact Hk |]. split; [discriminate |].
    intros [Hn | Hn]; rewrite Hk in Hn; discriminate.
  - rewrite check_api_key_absent in H by assumption.
    apply api_key_loop_returns in H as (Henv & Hacc & _).
    apply accepted_spec in Hacc as [Hne Hpre]. auto.
Qed.

End CredentialGate.

(** C1, as stated, fails: the line "AIza" followed by a NUL character and "x"
    is non-empty and starts with "AIza", so it passes the test, but it is
    neither written to the environment nor returned; the assignment raises
    ValueError, which nothing handles. *)
Lemma nul_key_counterexample :
  let h := demo_host everything_present (Exited 0) in
  let s := lit "AIza" ++ [0; 120] in
  well_formed_key (strip s)
  /\ accepted (strip s) = true
  /\ ~ accepts_at_once h s
  /\ api_key_loop h [Line s] fresh = (Raise ValueError, writes api_key_prompt fresh)
  /\ run h [Line s] fresh
     = (Unhandled ValueError, writes (guidance_text ++ api_key_prompt) fresh).
Proof.
  cbv zeta. split; [| split; [| split; [| split]]].
  - split; [discriminate | exists [0; 120]; reflexivity].
  - reflexivity.
  - intros H. specialize (H [] fresh). vm_compute in H. discriminate.
  - vm_compute. reflexivity.
  - vm_compute. reflexivity.
Qed.

(** "AIza1234" is taken at the first attempt and "hello" is turned down. *)
Lemma api_key_prompt_accepts_iff_well_formed_witness :
  let h := demo_host everything_present (Exited 0) in
  storable h (strip (lit "AIza1234"))
  /\ accepts_at_once h (lit "AIza1234")
  /\ rejects_and_reprompts h (lit "hello").
Proof.
  cbv zeta. split; [reflexivity |]. split.
  - apply (proj1 (api_key_prompt_accepts_iff_well_formed
                    (demo_host everything_present (Exited 0)) (lit "AIza1234"))).
    + reflexivity.
    + split; [discriminate | exists (lit "1234"); reflexivity].
  - apply (proj2 (api_key_prompt_accepts_iff_well_formed
                    (demo_host everything_present (Exited 0)) (lit "hello"))).
    intros [_ [t Ht]]. discriminate.
Defined.

Lemma preset_key_returned_unchanged_witness :
  let h := demo_host everything_present (Exited 0) in
  let st := State {[ GEMINI_API_KEY := lit "not-a-google-key" ]} [] [] in
  accepted (lit "not-a-google-key") = false
  /\ check_api_key h [Line (lit "AIza1234")] st
     = (Ret (lit "not-a-google-key", [Line (lit "AIza1234")]), st).
Proof.
  split; [reflexivity |].
  apply (preset_key_returned_unchanged (demo_host everything_present (Exited 0))
           [Line (lit "AIza1234")]
           (State {[ GEMINI_API_KEY := lit "not-a-google-key" ]} [] [])
           (lit "not-a-google-key")).
  - vm_compute. reflexivity.
  - discriminate.
Defined.

Lemma returned_key_is_in_environ_witness :
  let h := demo_host everything_present (Exited 0) in
  let stdin := [Line (lit "hello"); Line (lit "  AIza1234 "); Line (lit "3")] in
  let st' := snd (check_api_key h stdin fresh) in
  fst (check_api_key h stdin fresh) = Ret (lit "AIza1234", [Line (lit "3")])
  /\ environ st' !! GEMINI_API_KEY = Some (lit "AIza1234")
  /\ lit "AIza1234" <> []
  /\ (lacks_api_key fresh -> exists t, lit "AIza1234" = lit "AIza" ++ t).
Proof.
  split; [vm_compute; reflexivity |].
  apply (returned_key_is_in_environ (demo_host everything_present (Exited 0))
           [Line (lit "hello"); Line (lit "  AIza1234 "); Line (lit "3")]
           [Line (lit "3")] fresh).
  vm_compute. reflexivity.
Defined.

(** * The menu *)

Section Menu.

Variable h : host.

(** C3, as amended. For every menu input whose stripped form is none of
    "1", "2", "3", the menu prints the error and comes round again, showing
    the menu and the prompt: no strategy is launched and the process does not
    exit. *)
Theorem invalid_choice_redisplays_menu (s : str) :
  invalid_choice s -> menu_turns_down h s.
Proof.
  intros H rest st. cbv zeta. split; [| split].
  - apply menu_loop_invalid. exact H.
  - reflexivity.
  - apply menu_loop_shows_menu.
Qed.

(** C10. The menu compares the stripped input: an input whose stripped form
    is "1" starts Visual Mode, "2" starts Terminal Mode and "3" says goodbye
    and exits with status 0; none of them takes the invalid-input branch. *)
Theorem menu_compares_stripped_input
    (s : str) (rest : list key_event) (st : state) :
  let st1 := writes (menu_text ++ choice_prompt) st in
  (strip s = lit "1" -> menu_loop h (Line s :: rest) st = run_with_gui h st1)
  /\ (strip s = lit "2" -> menu_loop h (Line s :: rest) st = run_cli h st1)
  /\ (strip s = lit "3" ->
      menu_loop h (Line s :: rest) st
      = (Raise (SystemExit 0), writes (goodbye ++ [10]) st1)).
Proof.
  cbv zeta. rewrite menu_loop_line. cbv zeta.
  split; [| split]; intros ->; reflexivity.
Qed.

(** C8. When the menu reads "3", possibly after inputs it turned down, the
    process says goodbye and exits with status 0; nothing has been launched. *)
Theorem choice_3_exits_with_status_0
    (stdin rest : list key_event) (pre : list str) (st st1 : state) (k : str) :
  check_api_key h stdin st = (Ret (k, map Line pre ++ Line (lit "3") :: rest), st1) ->
  Forall invalid_choice pre ->
  let again := rounds (length pre) (menu_text ++ choice_prompt ++ invalid_choice_text) in
  run h stdin st
  = (ExitStatus 0,
     writes (again ++ menu_text ++ choice_prompt ++ goodbye ++ [10]) st1)
  /\ launched (snd (run h stdin st)) = launched st1.
Proof.
  intros Hgate Hpre. cbv zeta.
  rewrite (run_after_gate h _ _ _ _ _ Hgate), menu_loop_invalid_prefix by assumption.
  rewrite menu_loop_line. cbv zeta.
  change (strip (lit "3")) with (lit "3").
  change (lit "3" == lit "1") with false. change (lit "3" == lit "2") with false.
  change (lit "3" == lit "3") with true. cbv iota.
  rewrite !writes_writes, <- !app_assoc. split; reflexivity.
Qed.

End Menu.

(** C3, as stated, fails: the line " 3 " is none of the exact strings "1",
    "2", "3", and yet the menu does not turn it down; the process exits with
    status 0. *)
Lemma exact_strings_counterexample :
  let h := demo_host everything_present (Exited 0) in
  let s := lit " 3 " in
  s <> lit "1" /\ s <> lit "2" /\ s <> lit "3"
  /\ fst (run h [Line s] keyed) = ExitStatus 0
  /\ ~ menu_turns_down h s.
Proof.
  cbv zeta. repeat split; try discriminate.
  intros H. destruct (H [] keyed) as [Heq _].
  apply (f_equal fst) in Heq. vm_compute in Heq. discriminate.
Qed.

(** " 4 " is turned down. *)
Lemma invalid_choice_redisplays_menu_witness :
  invalid_choice (lit " 4 ")
  /\ menu_turns_down (demo_host everything_present (Exited 0)) (lit " 4 ").
Proof.
  assert (H : invalid_choice (lit " 4 ")).
  { repeat split; discriminate. }
  split; [exact H |].
  apply (invalid_choice_redisplays_menu (demo_host everything_present (Exited 0))
           (lit " 4 ") H).
Defined.

(** " 1 " starts Visual Mode, " 2" starts Terminal Mode and "3" followed by a
    line feed exits. *)
Lemma menu_compares_stripped_input_witness :
  let h := demo_host everything_present (Exited 0) in
  let st1 := writes (menu_text ++ choice_prompt) keyed in
  menu_loop h [Line (lit " 1 ")] keyed = run_with_gui h st1
  /\ menu_loop h [Line (lit " 2")] keyed = run_cli h st1
  /\ menu_loop h [Line (lit "3" ++ [10])] keyed
     = (Raise (SystemExit 0), writes (goodbye ++ [10]) st1).
Proof.
  cbv zeta. split; [| split].
  - apply (menu_compares_stripped_input (demo_host everything_present (Exited 0))
             (lit " 1 ") [] keyed). reflexivity.
  - apply (menu_compares_stripped_input (demo_host everything_present (Exited 0))
             (lit " 2") [] keyed). reflexivity.
  - apply (menu_compares_stripped_input (demo_host everything_present (Exited 0))
             (lit "3" ++ [10]) [] keyed). reflexivity.
Defined.

Lemma choice_3_exits_with_status_0_witness :
  let h := demo_host everything_present (Exited 0) in
  let stdin := [Line (lit "AIza1234"); Line (lit "play"); Line (lit "3"); Line (lit "1")] in
  fst (run h stdin fresh) = ExitStatus 0
  /\ launched (snd (run h stdin fresh)) = [].
Proof.
  cbv zeta.
  destruct (choice_3_exits_with_status_0 (demo_host everything_present (Exited 0))
              [Line (lit "AIza1234"); Line (lit "play"); Line (lit "3"); Line (lit "1")]
              [Line (lit "1")] [lit "play"] fresh
              (snd (check_api_key (demo_host everything_present (Exited 0)) [Line (lit "AIza1234")] fresh))
              (lit "AIza1234")) as [Hrun Hlaunched].
  - vm_compute. reflexivity.
  - repeat constructor; discriminate.
  - split; [rewrite Hrun; reflexivity | rewrite Hlaunched; reflexivity].
Defined.

(** * The launch strategies *)

Section Launch.

Variable h : host.

(** The executable [run_with_gui] looks for, by platform. *)
Lemma pipedream_exe_win32 :
  platform h = lit "win32" ->
  pipedream_exe h
  = project_dir h </> lit ".venv" </> lit "Scripts" </> lit "pipedream-gui.exe".
Proof.
  intros H. unfold pipedream_exe, gui_paths. apply str_eqb_eq in H. rewrite H.
  reflexivity.
Qed.

Lemma pipedream_exe_other :
  platform h <> lit "win32" ->
  pipedream_exe h = project_dir h </> lit ".venv" </> lit "bin" </> lit "pipedream-gui".
Proof.
  intros H. unfold pipedream_exe, gui_paths. apply str_eqb_neq in H. rewrite H.
  reflexivity.
Qed.

(** C5. Each strategy fails fast when what it needs on disk is missing: it
    prints a diagnostic and the process exits with status 1, and no command
    is handed to [subprocess.run]. Visual Mode needs the .venv directory and
    the executable resolved in it, Terminal Mode needs pytrek_cli.py. *)
Theorem missing_dependency_fails_fast
    (stdin rest : list key_event) (st st1 : state) (k s : str) :
  check_api_key h stdin st = (Ret (k, Line s :: rest), st1) ->
  let st2 := writes (menu_text ++ choice_prompt) st1 in
  (strip s = lit "1" -> path_exists h (venv_dir h) = false ->
   run h stdin st = (ExitStatus 1, writes (gui_banner ++ venv_missing_text) st2)
   /\ launched (snd (run h stdin st)) = launched st1)
  /\ (strip s = lit "1" -> path_exists h (venv_dir h) = true ->
      path_exists h (pipedream_exe h) = false ->
      run h stdin st = (ExitStatus 1, writes (gui_banner ++ exe_missing_text h) st2)
      /\ launched (snd (run h stdin st)) = launched st1)
  /\ (strip s = lit "2" -> path_exists h (cli_script h) = false ->
      run h stdin st = (ExitStatus 1, writes (cli_banner ++ script_missing_text h) st2)
      /\ launched (snd (run h stdin st)) = launched st1).
Proof.
  intros Hgate. cbv zeta. rewrite (run_after_gate h _ _ _ _ _ Hgate).
  split; [| split].
  - intros Hs Hv. rewrite menu_loop_gui, run_with_gui_no_venv by assumption.
    split; reflexivity.
  - intros Hs Hv He. rewrite menu_loop_gui, run_with_gui_no_exe by assumption.
    split; reflexivity.
  - intros Hs Hc. rewrite menu_loop_cli, run_cli_no_script by assumption.
    split; reflexivity.
Qed.

(** C6. With menu input "2" and the script present, the child's status
    decides: if the child exits with status 0 so does the parent; if it exits
    with another status the parent prints "Error running CLI: " followed by
    the description of the failure and exits with status 1. *)
Theorem terminal_mode_follows_child_status
    (stdin rest : list key_event) (st st1 : state) (k s : str) (returncode : Z) :
  check_api_key h stdin st = (Ret (k, Line s :: rest), st1) ->
  strip s = lit "2" ->
  path_exists h (cli_script h) = true ->
  spawn h (cli_cmd h) (environ st1) = Exited returncode ->
  let st2 := launches (cli_cmd h) (writes (menu_text ++ choice_prompt ++ cli_banner) st1) in
  (returncode = 0%Z -> run h stdin st = (ExitStatus 0, st2))
  /\ (returncode <> 0%Z ->
      run h stdin st = (ExitStatus 1, writes (cli_failed_text h returncode) st2)).
Proof.
  intros Hgate Hs Hc Hchild. cbv zeta.
  rewrite (run_after_gate h _ _ _ _ _ Hgate).
  rewrite menu_loop_cli, run_cli_spawns by assumption. cbv zeta.
  cbn [environ writes]. rewrite Hchild.
  split; intros Hrc.
  - subst returncode. cbn [Z.eqb ends]. rewrite writes_writes, <- app_assoc.
    reflexivity.
  - apply Z.eqb_neq in Hrc. rewrite Hrc. cbn [ends].
    rewrite writes_writes, <- app_assoc. reflexivity.
Qed.

(** A launch failure in Visual Mode is reported and ends the process with
    status 1. *)
Lemma gui_launch_failure_reported
    (stdin rest : list key_event) (st st1 : state) (k s : str) :
  check_api_key h stdin st = (Ret (k, Line s :: rest), st1) ->
  strip s = lit "1" ->
  path_exists h (venv_dir h) = true ->
  path_exists h (pipedream_exe h) = true ->
  spawn h (gui_cmd h) (environ st1) = NotFound ->
  run h stdin st
  = (ExitStatus 1,
     writes command_not_found_text
       (launches (gui_cmd h) (writes (menu_text ++ choice_prompt ++ gui_banner) st1))).
Proof.
  intros Hgate Hs Hv He Hchild.
  rewrite (run_after_gate h _ _ _ _ _ Hgate).
  rewrite menu_loop_gui, run_with_gui_spawns by assumption. cbv zeta.
  cbn [environ writes]. rewrite Hchild. cbn [ends].
  rewrite writes_writes, <- app_assoc. reflexivity.
Qed.

(** A launch failure in Terminal Mode is not caught anywhere. *)
Lemma cli_launch_failure_escapes
    (stdin rest : list key_event) (st st1 : state) (k s : str) :
  check_api_key h stdin st = (Ret (k, Line s :: rest), st1) ->
  strip s = lit "2" ->
  path_exists h (cli_script h) = true ->
  spawn h (cli_cmd h) (environ st1) = NotFound ->
  run h stdin st
  = (Unhandled FileNotFoundError,
     launches (cli_cmd h) (writes (menu_text ++ choice_prompt ++ cli_banner) st1)).
Proof.
  intros Hgate Hs Hc Hchild.
  rewrite (run_after_gate h _ _ _ _ _ Hgate).
  rewrite menu_loop_cli, run_cli_spawns by assumption. cbv zeta.
  cbn [environ writes]. rewrite Hchild. cbn [ends].
  rewrite writes_writes, <- app_assoc. reflexivity.
Qed.

End Launch.

Lemma missing_dependency_fails_fast_witness :
  let bare := demo_host nothing_present (Exited 0) in
  let half := demo_host only_venv_present (Exited 0) in
  (fst (run bare [Line (lit "1")] keyed) = ExitStatus 1
   /\ launched (snd (run bare [Line (lit "1")] keyed)) = [])
  /\ (run half [Line (lit "1")] keyed
      = (ExitStatus 1,
         writes (gui_banner ++ lit "Error: pipedream-gui not found at "
                 ++ lit "/game/.venv/bin/pipedream-gui" ++ [10])
           (writes (menu_text ++ choice_prompt) keyed))
      /\ launched (snd (run half [Line (lit "1")] keyed)) = [])
  /\ (fst (run bare [Line (lit "2")] keyed) = ExitStatus 1
      /\ launched (snd (run bare [Line (lit "2")] keyed)) = []).
Proof.
  cbv zeta.
  assert (Hgate : forall h s, check_api_key h [Line s] keyed
                            = (Ret (lit "AIzaSy", [Line s]), keyed)).
  { intros h s. apply check_api_key_present. vm_compute. reflexivity. }
  split; [| split].
  - destruct (missing_dependency_fails_fast (demo_host nothing_present (Exited 0))
                _ _ _ _ _ _ (Hgate _ (lit "1"))) as (H & _ & _).
    destruct H as [Hrun Hl]; [reflexivity | reflexivity |].
    rewrite Hrun. split; reflexivity.
  - destruct (missing_dependency_fails_fast (demo_host only_venv_present (Exited 0))
                _ _ _ _ _ _ (Hgate _ (lit "1"))) as (_ & H & _).
    destruct H as [Hrun Hl]; [reflexivity | reflexivity | reflexivity |].
    rewrite Hrun. split; reflexivity.
  - destruct (missing_dependency_fails_fast (demo_host nothing_present (Exited 0))
                _ _ _ _ _ _ (Hgate _ (lit "2"))) as (_ & _ & H).
    destruct H as [Hrun Hl]; [reflexivity | reflexivity |].
    rewrite Hrun. split; reflexivity.
Defined.

Lemma terminal_mode_follows_child_status_witness :
  fst (run (demo_host everything_present (Exited 0)) [Line (lit "2")] keyed)
  = ExitStatus 0
  /\ run (demo_host everything_present (Exited 2)) [Line (lit "2")] keyed
     = (ExitStatus 1,
        State (environ keyed)
              (menu_text ++ choice_prompt ++ cli_banner
               ++ lit "Error running CLI: "
               ++ CalledProcessError_str (demo_host everything_present (Exited 2)) 2
                    [lit "/usr/bin/python3"; lit "/game/pytrek_cli.py"]
               ++ [10])
              [[lit "/usr/bin/python3"; lit "/game/pytrek_cli.py"]]).
Proof.
  assert (Hgate : forall h, check_api_key h [Line (lit "2")] keyed
                  = (Ret (lit "AIzaSy", [Line (lit "2")]), keyed)).
  { intros h. apply check_api_key_present. vm_compute. reflexivity. }
  split.
  - destruct (terminal_mode_follows_child_status
                (demo_host everything_present (Exited 0)) _ _ _ _ _ _ 0%Z (Hgate _))
      as [H _]; [reflexivity | reflexivity | reflexivity |].
    rewrite H by reflexivity. reflexivity.
  - destruct (terminal_mode_follows_child_status
                (demo_host everything_present (Exited 2)) _ _ _ _ _ _ 2%Z (Hgate _))
      as [_ H]; [reflexivity | reflexivity | reflexivity |].
    rewrite H by discriminate. reflexivity.
Defined.

(** C4. On a host where the command cannot be started, Visual Mode prints
    its diagnostic and the process exits with status 1, but Terminal Mode
    raises FileNotFoundError out of [run_cli], [main] and the top level: the
    launcher prints no diagnostic of its own and does not call [sys.exit]. *)
Theorem terminal_mode_launch_failure_unhandled :
  let h := demo_host everything_present NotFound in
  let asked := writes (menu_text ++ choice_prompt) keyed in
  run h [Line (lit "1")] keyed
  = (ExitStatus 1,
     writes command_not_found_text (launches (gui_cmd h) (writes gui_banner asked)))
  /\ run h [Line (lit "2")] keyed
     = (Unhandled FileNotFoundError, launches (cli_cmd h) (writes cli_banner asked)).
Proof.
  cbv zeta.
  assert (Hgate : forall h s, check_api_key h [Line s] keyed
                            = (Ret (lit "AIzaSy", [Line s]), keyed)).
  { intros h s. apply check_api_key_present. vm_compute. reflexivity. }
  split.
  - rewrite (gui_launch_failure_reported _ _ _ _ _ _ _ (Hgate _ (lit "1")));
      reflexivity.
  - rewrite (cli_launch_failure_escapes _ _ _ _ _ _ _ (Hgate _ (lit "2")));
      reflexivity.
Qed.

(** * Interrupts *)

Section Interrupts.

Variable h : host.

(** Where [main] can meet an interrupt: at the credential prompt, at the menu
    prompt, and while it waits for the child of either strategy. *)
Lemma interrupt_at_api_key_prompt
    (pre : list str) (rest : list key_event) (st : state) :
  lacks_api_key st ->
  Forall rejected_line pre ->
  main h (map Line pre ++ CtrlC :: rest) st
  = (Raise KeyboardInterrupt,
     writes (guidance_text ++ rounds (length pre) (api_key_prompt ++ rejection_text)
             ++ api_key_prompt) st).
Proof.
  intros Hno Hpre. rewrite main_eq, check_api_key_absent by assumption.
  rewrite api_key_loop_rejected_prefix, api_key_loop_interrupt by assumption.
  rewrite !writes_writes, <- ?app_assoc. reflexivity.
Qed.

Lemma interrupt_at_menu_prompt
    (stdin rest : list key_event) (pre : list str) (st st1 : state) (k : str) :
  check_api_key h stdin st = (Ret (k, map Line pre ++ CtrlC :: rest), st1) ->
  Forall invalid_choice pre ->
  main h stdin st
  = (Raise KeyboardInterrupt,
     writes (rounds (length pre) (menu_text ++ choice_prompt ++ invalid_choice_text)
             ++ menu_text ++ choice_prompt) st1).
Proof.
  intros Hgate Hpre. rewrite main_eq, Hgate. cbn [snd].
  rewrite menu_loop_invalid_prefix, menu_loop_interrupt by assumption.
  rewrite writes_writes. reflexivity.
Qed.

Lemma interrupt_while_gui_runs
    (stdin rest : list key_event) (st st1 : state) (k s : str) :
  check_api_key h stdin st = (Ret (k, Line s :: rest), st1) ->
  strip s = lit "1" ->
  path_exists h (venv_dir h) = true ->
  path_exists h (pipedream_exe h) = true ->
  spawn h (gui_cmd h) (environ st1) = Interrupted ->
  main h stdin st
  = (Raise KeyboardInterrupt,
     launches (gui_cmd h) (writes (menu_text ++ choice_prompt ++ gui_banner) st1)).
Proof.
  intros Hgate Hs Hv He Hchild. rewrite main_eq, Hgate. cbn [snd].
  rewrite menu_loop_gui, run_with_gui_spawns by assumption. cbv zeta.
  cbn [environ writes]. rewrite Hchild.
  rewrite writes_writes, <- app_assoc. reflexivity.
Qed.

Lemma interrupt_while_cli_runs
    (stdin rest : list key_event) (st st1 : state) (k s : str) :
  check_api_key h stdin st = (Ret (k, Line s :: rest), st1) ->
  strip s = lit "2" ->
  path_exists h (cli_script h) = true ->
  spawn h (cli_cmd h) (environ st1) = Interrupted ->
  main h stdin st
  = (Raise KeyboardInterrupt,
     launches (cli_cmd h) (writes (menu_text ++ choice_prompt ++ cli_banner) st1)).
Proof.
  intros Hgate Hs Hc Hchild. rewrite main_eq, Hgate. cbn [snd].
  rewrite menu_loop_cli, run_cli_spawns by assumption. cbv zeta.
  cbn [environ writes]. rewrite Hchild.
  rewrite writes_writes, <- app_assoc. reflexivity.
Qed.

(** C2. A KeyboardInterrupt raised anywhere in [main] (at the credential
    prompt, at the menu prompt or while waiting for a child) is caught at the
    top level: the farewell is printed and the process exits with status 0.
    No run ends with an unhandled KeyboardInterrupt. *)
Theorem interrupt_exits_gracefully (stdin : list key_event) (st : state) :
  fst (run h stdin st) <> Unhandled KeyboardInterrupt
  /\ forall st', main h stdin st = (Raise KeyboardInterrupt, st') ->
                 run h stdin st = (ExitStatus 0, writes farewell_on_interrupt st').
Proof.
  rewrite run_eq. split.
  - destruct (main h stdin st) as [[[]|e] st']; [discriminate |].
    destruct e; discriminate.
  - intros st' H. rewrite H. reflexivity.
Qed.

End Interrupts.

(** Ctrl+C at the credential prompt, at the menu prompt and during each
    child. *)
Lemma interrupt_exits_gracefully_witness :
  let calm := demo_host everything_present (Exited 0) in
  let busy := demo_host everything_present Interrupted in
  run calm [Line (lit "hello"); CtrlC] fresh
  = (ExitStatus 0,
     writes (guidance_text ++ api_key_prompt ++ rejection_text ++ api_key_prompt
             ++ farewell_on_interrupt) fresh)
  /\ run calm [Line (lit "AIza1234"); Line (lit "7"); CtrlC] fresh
     = (ExitStatus 0,
        State {[ GEMINI_API_KEY := lit "AIza1234" ]}
              (guidance_text ++ api_key_prompt ++ accepted_text
               ++ menu_text ++ choice_prompt ++ invalid_choice_text
               ++ menu_text ++ choice_prompt ++ farewell_on_interrupt) [])
  /\ fst (run busy [Line (lit "1")] keyed) = ExitStatus 0
  /\ fst (run busy [Line (lit "2")] keyed) = ExitStatus 0.
Proof.
  cbv zeta. split; [| split; [| split]].
  - rewrite (proj2 (interrupt_exits_gracefully
                      (demo_host everything_present (Exited 0))
                      [Line (lit "hello"); CtrlC] fresh)
               (writes (guidance_text ++ api_key_prompt ++ rejection_text
                        ++ api_key_prompt) fresh)).
    + vm_compute. reflexivity.
    + vm_compute. reflexivity.
  - rewrite (proj2 (interrupt_exits_gracefully
                      (demo_host everything_present (Exited 0))
                      [Line (lit "AIza1234"); Line (lit "7"); CtrlC] fresh)
               (snd (main (demo_host everything_present (Exited 0))
                       [Line (lit "AIza1234"); Line (lit "7"); CtrlC] fresh))).
    + vm_compute. reflexivity.
    + vm_compute. reflexivity.
  - rewrite (proj2 (interrupt_exits_gracefully
                      (demo_host everything_present Interrupted)
                      [Line (lit "1")] keyed)
               (snd (main (demo_host everything_present Interrupted)
                       [Line (lit "1")] keyed))).
    + reflexivity.
    + vm_compute. reflexivity.
  - rewrite (proj2 (interrupt_exits_gracefully
                      (demo_host everything_present Interrupted)
                      [Line (lit "2")] keyed)
               (snd (main (demo_host everything_present Interrupted)
                       [Line (lit "2")] keyed))).
    + reflexivity.
    + vm_compute. reflexivity.
Defined.

(** * Further properties of the launcher *)

(** ** What each part leaves alone *)

Lemma ends_environ (r : result unit * state) : environ (snd (ends r)) = environ (snd r).
Proof. destruct r as [[[]|e] st]; [reflexivity |]. destruct e; reflexivity. Qed.

Lemma ends_launched (r : result unit * state) : launched (snd (ends r)) = launched (snd r).
Proof. destruct r as [[[]|e] st]; [reflexivity |]. destruct e; reflexivity. Qed.

Section Summaries.

Variable h : host.

Lemma run_with_gui_summary (st : state) :
  let r := run_with_gui h st in
  environ (snd r) = environ st
  /\ (launched (snd r) = launched st \/ launched (snd r) = launched st ++ [gui_cmd h])
  /\ ends_well (fst r).
Proof.
  cbv zeta. destruct (path_exists h (venv_dir h)) eqn:Hv.
  - destruct (path_exists h (pipedream_exe h)) eqn:He.
    + rewrite run_with_gui_spawns by assumption. cbv zeta.
      destruct (spawn h _ _) as [rc | | | | errno]; [destruct (rc =? 0)%Z | | | |];
        cbn [fst snd environ launched writes launches ends_well leaves_main]; auto.
    + rewrite run_with_gui_no_exe by assumption.
      cbn [fst snd environ launched writes ends_well leaves_main]. auto.
  - rewrite run_with_gui_no_venv by assumption.
    cbn [fst snd environ launched writes ends_well leaves_main]. auto.
Qed.

Lemma run_cli_summary (st : state) :
  let r := run_cli h st in
  environ (snd r) = environ st
  /\ (launched (snd r) = launched st \/ launched (snd r) = launched st ++ [cli_cmd h])
  /\ ends_well (fst r).
Proof.
  cbv zeta. destruct (path_exists h (cli_script h)) eqn:Hs.
  - rewrite run_cli_spawns by assumption. cbv zeta.
    destruct (spawn h _ _) as [rc | | | | errno]; [destruct (rc =? 0)%Z | | | |];
      cbn [fst snd environ launched writes launches ends_well leaves_main]; auto.
  - rewrite run_cli_no_script by assumption.
    cbn [fst snd environ launched writes ends_well leaves_main]. auto.
Qed.

(** The menu never touches the environment and hands at most one command to
    [subprocess.run]. *)
Lemma menu_loop_summary (stdin : list key_event) (st : state) :
  let r := menu_loop h stdin st in
  environ (snd r) = environ st
  /\ (launched (snd r) = launched st
      \/ launched (snd r) = launched st ++ [gui_cmd h]
      \/ launched (snd r) = launched st ++ [cli_cmd h])
  /\ ends_well (fst r).
Proof.
  cbv zeta. revert st. induction stdin as [|[s|] rest IH]; intros st.
  - rewrite menu_loop_eof. cbn [fst snd environ launched writes ends_well leaves_main]. auto.
  - rewrite menu_loop_line. cbv zeta.
    set (st1 := writes (menu_text ++ choice_prompt) st).
    destruct (strip s == lit "1").
    { destruct (run_with_gui_summary st1) as (He & Hl & Hr).
      rewrite He. split; [reflexivity |]. split; [| exact Hr].
      destruct Hl as [-> | ->]; auto. }
    destruct (strip s == lit "2").
    { destruct (run_cli_summary st1) as (He & Hl & Hr).
      rewrite He. split; [reflexivity |]. split; [| exact Hr].
      destruct Hl as [-> | ->]; auto. }
    destruct (strip s == lit "3").
    { cbn [fst snd environ launched writes ends_well leaves_main]. auto. }
    destruct (IH (writes invalid_choice_text st1)) as (He & Hl & Hr).
    rewrite He. split; [reflexivity |]. split; assumption.
  - rewrite menu_loop_interrupt.
    cbn [fst snd environ launched writes ends_well leaves_main]. auto.
Qed.

(** The credential prompt launches nothing and changes no variable but
    GEMINI_API_KEY. *)
Lemma api_key_loop_summary (stdin : list key_event) (st : state) :
  let r := api_key_loop h stdin st in
  launched (snd r) = launched st
  /\ (forall name, name <> GEMINI_API_KEY ->
                   environ (snd r) !! name = environ st !! name)
  /\ ends_well (fst r).
Proof.
  cbv zeta. revert st. induction stdin as [|[s|] stdin IH]; intros st.
  - rewrite api_key_loop_eof. cbn [fst snd environ launched writes ends_well leaves_main].
    auto.
  - rewrite api_key_loop_line. destruct (accepted (strip s)).
    + destruct (environ_setitem_error h GEMINI_API_KEY (strip s)) as [e|] eqn:Hs.
      * cbn [fst snd environ launched writes ends_well].
        apply environ_setitem_error_cases in Hs as [-> | ->]; cbn [leaves_main]; auto.
      * cbn [fst snd environ launched ends_well]. split; [reflexivity |]. split; [| exact I].
        intros name Hname. apply lookup_insert_ne. congruence.
    + apply (IH (writes (api_key_prompt ++ rejection_text) st)).
  - rewrite api_key_loop_interrupt.
    cbn [fst snd environ launched writes ends_well leaves_main]. auto.
Qed.

Lemma check_api_key_summary (stdin : list key_event) (st : state) :
  let r := check_api_key h stdin st in
  launched (snd r) = launched st
  /\ (forall name, name <> GEMINI_API_KEY ->
                   environ (snd r) !! name = environ st !! name)
  /\ ends_well (fst r).
Proof.
  cbv zeta. destruct (key_or_not st) as [(c & k & Hk) | Hno].
  - rewrite (check_api_key_present h _ _ _ _ Hk). cbn [fst snd ends_well].
    split; [reflexivity |]. split; [reflexivity | exact I].
  - rewrite check_api_key_absent by assumption.
    apply (api_key_loop_summary stdin (writes guidance_text st)).
Qed.

(** What the prompt returns is the stripped form of the first line it
    accepts and the environment can hold; the lines before were turned down
    and the keys after are left. *)
Lemma api_key_loop_returns_first (stdin rest : list key_event) (st st' : state) (v : str) :
  api_key_loop h stdin st = (Ret (v, rest), st') ->
  exists pre s, stdin = map Line pre ++ Line s :: rest
                /\ Forall rejected_line pre /\ v = strip s /\ accepted (strip s) = true
                /\ storable h (strip s).
Proof.
  revert st. induction stdin as [|[s|] stdin IH]; intros st H.
  - rewrite api_key_loop_eof in H. discriminate.
  - rewrite api_key_loop_line in H. destruct (accepted (strip s)) eqn:E.
    + destruct (environ_setitem_error h GEMINI_API_KEY (strip s)) eqn:Hs;
        [discriminate |].
      injection H as <- <- <-. exists [], s. auto.
    + apply IH in H as (pre & s' & -> & Hpre & Hv & Hacc & Hst).
      exists (s :: pre), s'. split; [reflexivity |]. auto.
  - rewrite api_key_loop_interrupt in H. discriminate.
Qed.

(** What [check_api_key] returns is in the environment and not empty. *)
Lemma returned_key_nonempty
    (stdin rest : list key_event) (st st' : state) (v : str) :
  check_api_key h stdin st = (Ret (v, rest), st') ->
  exists c k, environ st' !! GEMINI_API_KEY = Some (c :: k).
Proof.
  intros H. destruct (key_or_not st) as [(c & k & Hk) | Hno].
  - rewrite (check_api_key_present h _ _ _ _ Hk) in H. injection H as <- <- <-. eauto.
  - rewrite check_api_key_absent in H by assumption.
    apply api_key_loop_returns in H as (Henv & Hacc & _).
    destruct v as [|c k]; [discriminate | eauto].
Qed.

(** The three facts about a run that the properties below share. *)
Lemma run_summary (stdin : list key_event) (st : state) :
  let r := run h stdin st in
  (forall name, name <> GEMINI_API_KEY ->
                environ (snd r) !! name = environ st !! name)
  /\ (launched (snd r) = launched st
      \/ (has_api_key (snd r)
          /\ (launched (snd r) = launched st ++ [gui_cmd h]
              \/ launched (snd r) = launched st ++ [cli_cmd h])))
  /\ (exists result, fst r = fst (ends (result, st)) /\ ends_well result).
Proof.
  cbv zeta. rewrite run_eq, ends_environ, ends_launched, main_eq.
  destruct (check_api_key_summary stdin st) as (Hl & He & Hr).
  destruct (check_api_key h stdin st) as [[[v rest]|e] st1] eqn:E; cbn [fst snd] in *.
  - destruct (menu_loop_summary rest st1) as (He' & Hl' & Hr').
    rewrite He', <- Hl. split; [exact He |]. split.
    + destruct Hl' as [-> | Hl']; [left; reflexivity | right]. split.
      * apply returned_key_nonempty in E. unfold has_api_key.
        rewrite ends_environ, He'. exact E.
      * destruct Hl' as [-> | ->]; auto.
    + destruct (menu_loop h rest st1) as [r st2]. cbn [fst] in Hr'.
      exists r. split; [| exact Hr'].
      destruct r as [[]|e]; [reflexivity |]. destruct e; reflexivity.
  - split; [exact He |]. split; [left; exact Hl |].
    exists (Raise e). split; [| exact Hr]. destruct e; reflexivity.
Qed.

End Summaries.

Lemma strip_blank (s : str) : forallb isspace s = true -> strip s = [].
Proof. intros H. unfold strip, rstrip. rewrite (lstrip_all_spaces s H). reflexivity. Qed.

(** ** The credential gate, further *)

Section GateFurther.

Variable h : host.

(** X1. A key obtained from the prompt is the stripped form of the first line
    the prompt accepts: that line passes the test, every line before it was
    turned down, the keys after it are left unread, and the key has no white
    space at either end. *)
Theorem prompted_key_is_first_accepted_line
    (stdin rest : list key_event) (st st' : state) (v : str) :
  lacks_api_key st ->
  check_api_key h stdin st = (Ret (v, rest), st') ->
  exists pre s,
    stdin = map Line pre ++ Line s :: rest
    /\ Forall rejected_line pre
    /\ accepted (strip s) = true
    /\ v = strip s
    /\ trimmed v = true.
Proof.
  intros Hno H. rewrite check_api_key_absent in H by assumption.
  apply api_key_loop_returns_first in H as (pre & s & Hin & Hpre & Hv & Hacc & _).
  exists pre, s. repeat (split; [assumption |]).
  subst v. destruct (strip_spec s) as (l & r & _ & _ & _ & Ht). exact Ht.
Qed.

(** X9. Without a usable key in the environment, the first acceptable line
    decides: after any number of lines that were turned down, and if the
    environment can hold it, it is stored under GEMINI_API_KEY and the menu
    starts on the keys that follow. *)
Theorem first_accepted_line_reaches_menu
    (pre : list str) (s : str) (rest : list key_event) (st : state) :
  lacks_api_key st ->
  Forall rejected_line pre ->
  accepted (strip s) = true ->
  storable h (strip s) ->
  main h (map Line pre ++ Line s :: rest) st
  = menu_loop h rest
      (State (<[GEMINI_API_KEY := strip s]> (environ st))
             (stdout st ++ guidance_text
              ++ rounds (length pre) (api_key_prompt ++ rejection_text)
              ++ api_key_prompt ++ accepted_text)
             (launched st)).
Proof.
  intros Hno Hpre Hacc Hst. rewrite main_eq, check_api_key_absent by assumption.
  rewrite api_key_loop_rejected_prefix, api_key_loop_storable, Hacc by assumption.
  cbn [snd writes environ stdout launched]. rewrite <- !app_assoc. reflexivity.
Qed.

(** X10. A well-formed key typed or pasted with white space around it, which
    the environment can hold, is accepted at once, and what is stored and
    returned is the key without the white space. *)
Theorem padded_key_is_stored_stripped
    (l k r : str) (rest : list key_event) (st : state) :
  forallb isspace l = true ->
  forallb isspace r = true ->
  trimmed k = true ->
  well_formed_key k ->
  storable h k ->
  api_key_loop h (Line (l ++ k ++ r) :: rest) st
  = (Ret (k, rest),
     State (<[GEMINI_API_KEY := k]> (environ st))
           (stdout st ++ api_key_prompt ++ accepted_text) (launched st)).
Proof.
  intros Hl Hr Hk Hwf Hst.
  assert (Hs : strip (l ++ k ++ r) = k) by (apply strip_padded; assumption).
  rewrite api_key_loop_storable by (rewrite Hs; exact Hst).
  rewrite Hs. apply accepted_spec in Hwf. rewrite Hwf. reflexivity.
Qed.

(** X8. A line of white space only, the empty line included, is turned down
    by both prompts: the credential prompt prints its diagnostic and asks
    again, and the menu prints its error and shows the menu again. *)
Theorem blank_line_is_turned_down (s : str) :
  forallb isspace s = true ->
  rejects_and_reprompts h s /\ menu_turns_down h s.
Proof.
  intros H. apply strip_blank in H. split.
  - intros rest st. cbv zeta. split.
    + apply api_key_loop_rejected. unfold rejected_line. rewrite H. reflexivity.
    + apply api_key_loop_prompts.
  - intros rest st. cbv zeta. split; [| split].
    + apply menu_loop_invalid. unfold invalid_choice. rewrite H.
      repeat split; discriminate.
    + reflexivity.
    + apply menu_loop_shows_menu.
Qed.

(** X12. A line that passes the test but that the environment cannot hold,
    such as a key with a NUL character in it, ends the run: the assignment
    raises ValueError or UnicodeEncodeError, nothing handles it, the
    environment is left as it was and nothing is launched. *)
Theorem unstorable_key_is_unhandled
    (pre : list str) (s : str) (rest : list key_event) (st : state) :
  lacks_api_key st ->
  Forall rejected_line pre ->
  accepted (strip s) = true ->
  ~ storable h (strip s) ->
  exists e,
    (e = ValueError \/ e = UnicodeEncodeError)
    /\ (has_nul (strip s) = true -> encodable h (strip s) = true -> e = ValueError)
    /\ run h (map Line pre ++ Line s :: rest) st
       = (Unhandled e,
          writes (guidance_text ++ rounds (length pre) (api_key_prompt ++ rejection_text)
                  ++ api_key_prompt) st).
Proof.
  intros Hno Hpre Hacc Hst. unfold storable in Hst.
  destruct (environ_setitem_error h GEMINI_API_KEY (strip s)) as [e|] eqn:He;
    [| congruence].
  exists e. split; [| split].
  - apply environ_setitem_error_cases in He as [-> | ->]; auto.
  - intros Hnul Henc. unfold environ_setitem_error in He.
    rewrite Henc, Hnul in He. cbn in He. congruence.
  - rewrite run_eq, main_eq, check_api_key_absent by assumption.
    rewrite api_key_loop_rejected_prefix, api_key_loop_line, Hacc, He by assumption.
    rewrite !writes_writes, <- ?app_assoc.
    apply environ_setitem_error_cases in He as [-> | ->]; reflexivity.
Qed.

End GateFurther.

Lemma prompted_key_is_first_accepted_line_witness :
  exists pre s,
    [Line (lit "key?"); Line (lit " AIzaSyD "); Line (lit "AIzaOther"); CtrlC]
    = map Line pre ++ Line s :: [Line (lit "AIzaOther"); CtrlC]
    /\ Forall rejected_line pre
    /\ accepted (strip s) = true
    /\ lit "AIzaSyD" = strip s
    /\ trimmed (lit "AIzaSyD") = true.
Proof.
  apply (prompted_key_is_first_accepted_line (demo_host everything_present (Exited 0))
           [Line (lit "key?"); Line (lit " AIzaSyD "); Line (lit "AIzaOther"); CtrlC]
           [Line (lit "AIzaOther"); CtrlC] fresh
           (snd (check_api_key (demo_host everything_present (Exited 0))
                   [Line (lit "key?"); Line (lit " AIzaSyD "); Line (lit "AIzaOther"); CtrlC]
                   fresh))).
  - left. reflexivity.
  - vm_compute. reflexivity.
Defined.

Lemma first_accepted_line_reaches_menu_witness :
  let h := demo_host everything_present (Exited 0) in
  main h [Line []; Line (lit "sk-123"); Line (lit "AIzaSyD"); Line (lit "3")] fresh
  = menu_loop h [Line (lit "3")]
      (State {[ GEMINI_API_KEY := lit "AIzaSyD" ]}
             (guidance_text
              ++ rounds 2 (api_key_prompt ++ rejection_text)
              ++ api_key_prompt ++ accepted_text)
             []).
Proof.
  cbv zeta.
  apply (first_accepted_line_reaches_menu (demo_host everything_present (Exited 0))
           [[]; lit "sk-123"] (lit "AIzaSyD") [Line (lit "3")] fresh).
  - left. reflexivity.
  - repeat constructor.
  - reflexivity.
  - reflexivity.
Defined.

Lemma padded_key_is_stored_stripped_witness :
  api_key_loop (demo_host everything_present (Exited 0))
    [Line ([32; 9] ++ lit "AIza1234" ++ [13; 160])] fresh
  = (Ret (lit "AIza1234", []),
     State {[ GEMINI_API_KEY := lit "AIza1234" ]}
           (api_key_prompt ++ accepted_text) []).
Proof.
  apply (padded_key_is_stored_stripped (demo_host everything_present (Exited 0))
           [32; 9] (lit "AIza1234") [13; 160] [] fresh).
  - reflexivity.
  - reflexivity.
  - reflexivity.
  - split; [discriminate | exists (lit "1234"); reflexivity].
  - reflexivity.
Defined.

Lemma blank_line_is_turned_down_witness :
  let h := demo_host everything_present (Exited 0) in
  (rejects_and_reprompts h [] /\ menu_turns_down h [])
  /\ (rejects_and_reprompts h (lit "   ") /\ menu_turns_down h (lit "   "))
  /\ (rejects_and_reprompts h [9; 32] /\ menu_turns_down h [9; 32]).
Proof.
  cbv zeta. split; [| split].
  - apply (blank_line_is_turned_down (demo_host everything_present (Exited 0)) []).
    reflexivity.
  - apply (blank_line_is_turned_down (demo_host everything_present (Exited 0)) (lit "   ")).
    reflexivity.
  - apply (blank_line_is_turned_down (demo_host everything_present (Exited 0)) [9; 32]).
    reflexivity.
Defined.

(** A key with a NUL character after a line that was turned down. *)
Lemma unstorable_key_is_unhandled_witness :
  let h := demo_host everything_present (Exited 0) in
  let s := lit " AIza" ++ [0] ++ lit "x " in
  exists e,
    (e = ValueError \/ e = UnicodeEncodeError)
    /\ (has_nul (strip s) = true -> encodable h (strip s) = true -> e = ValueError)
    /\ run h [Line (lit "hello"); Line s; Line (lit "2")] fresh
       = (Unhandled e,
          writes (guidance_text ++ rounds 1 (api_key_prompt ++ rejection_text)
                  ++ api_key_prompt) fresh).
Proof.
  cbv zeta.
  apply (unstorable_key_is_unhandled (demo_host everything_present (Exited 0))
           [lit "hello"] (lit " AIza" ++ [0] ++ lit "x ") [Line (lit "2")] fresh).
  - left. reflexivity.
  - repeat constructor.
  - reflexivity.
  - apply nul_is_not_storable. reflexivity.
Defined.

(** ** Whole runs *)

Section Runs.

Variable h : host.

(** X2. Whatever a run does, GEMINI_API_KEY is the only environment variable
    it can change. *)
Theorem other_variables_untouched
    (stdin : list key_event) (st : state) (name : str) :
  name <> GEMINI_API_KEY ->
  environ (snd (run h stdin st)) !! name = environ st !! name.
Proof. intros H. apply (run_summary h stdin st). exact H. Qed.

(** X3. A run hands at most one command to [subprocess.run], and it is the
    command of Visual Mode or that of Terminal Mode. *)
Theorem at_most_one_child_is_launched (stdin : list key_event) (st : state) :
  launched (snd (run h stdin st)) = launched st
  \/ launched (snd (run h stdin st)) = launched st ++ [gui_cmd h]
  \/ launched (snd (run h stdin st)) = launched st ++ [cli_cmd h].
Proof.
  destruct (run_summary h stdin st) as (_ & [H | [_ [H | H]]] & _); auto.
Qed.

(** X4. A child is only started once the key is there: if a run has handed a
    command to [subprocess.run], GEMINI_API_KEY holds a non-empty value in
    the environment. *)
Theorem child_is_launched_with_key (stdin : list key_event) (st : state) :
  launched (snd (run h stdin st)) <> launched st ->
  has_api_key (snd (run h stdin st)).
Proof.
  intros H. destruct (run_summary h stdin st) as (_ & [Hl | [Hk _]] & _);
    [contradiction | exact Hk].
Qed.


(** X11. When the environment already holds a usable key, a run leaves the
    whole environment as it found it. *)
Theorem preset_key_environment_kept (stdin : list key_event) (st : state) :
  has_api_key st ->
  environ (snd (run h stdin st)) = environ st.
Proof.
  intros H. rewrite run_eq, ends_environ, main_with_key by assumption.
  apply (menu_loop_summary h stdin st).
Qed.

(** X6. The end of the input is not handled: when the input runs out at the
    credential prompt or at the menu, after lines that were turned down, the
    run ends with an unhandled EOFError, the last thing written being the
    prompt. *)
Theorem end_of_input_is_unhandled
    (stdin : list key_event) (pre : list str) (st st1 : state) (k : str) :
  (lacks_api_key st -> Forall rejected_line pre ->
   run h (map Line pre) st
   = (Unhandled EOFError,
      writes (guidance_text ++ rounds (length pre) (api_key_prompt ++ rejection_text)
              ++ api_key_prompt) st))
  /\ (check_api_key h stdin st = (Ret (k, map Line pre), st1) ->
      Forall invalid_choice pre ->
      run h stdin st
      = (Unhandled EOFError,
         writes (rounds (length pre) (menu_text ++ choice_prompt ++ invalid_choice_text)
                 ++ menu_text ++ choice_prompt) st1)).
Proof.
  split.
  - intros Hno Hpre. rewrite run_eq, main_eq, check_api_key_absent by assumption.
    rewrite <- (app_nil_r (map Line pre)).
    rewrite api_key_loop_rejected_prefix, api_key_loop_eof by assumption.
    cbn [ends]. rewrite !writes_writes, <- ?app_assoc. reflexivity.
  - intros Hgate Hpre. rewrite (run_after_gate h _ _ _ _ _ Hgate).
    rewrite <- (app_nil_r (map Line pre)).
    rewrite menu_loop_invalid_prefix, menu_loop_eof by assumption.
    cbn [ends]. rewrite writes_writes. reflexivity.
Qed.

(** X7. Visual Mode follows its child as Terminal Mode does. With menu input
    "1", the .venv directory and the executable present, the command handed
    to [subprocess.run] is the executable, the art-style flag and its value,
    "bash" and the companion script; if the child exits with status 0 so does
    the parent, and if it exits with another status the parent prints
    "Error running GUI: " with the description of the failure and exits with
    status 1. *)
Theorem visual_mode_follows_child_status
    (stdin rest : list key_event) (st st1 : state) (k s : str) (returncode : Z) :
  check_api_key h stdin st = (Ret (k, Line s :: rest), st1) ->
  strip s = lit "1" ->
  path_exists h (venv_dir h) = true ->
  path_exists h (pipedream_exe h) = true ->
  spawn h (gui_cmd h) (environ st1) = Exited returncode ->
  let st2 := launches (gui_cmd h) (writes (menu_text ++ choice_prompt ++ gui_banner) st1) in
  gui_cmd h
  = [ fspath h (pipedream_exe h); lit "--art-style";
      lit "StarTrek sci-fi game, orange monochrome"; lit "bash";
      fspath h (project_dir h </> lit "pytrek-9000.sh") ]
  /\ (returncode = 0%Z -> run h stdin st = (ExitStatus 0, st2))
  /\ (returncode <> 0%Z ->
      run h stdin st = (ExitStatus 1, writes (gui_failed_text h returncode) st2)).
Proof.
  intros Hgate Hs Hv He Hchild. cbv zeta. split.
  { unfold gui_cmd, pipedream_exe, gui_paths.
    destruct (platform h == lit "win32"); reflexivity. }
  rewrite (run_after_gate h _ _ _ _ _ Hgate).
  rewrite menu_loop_gui, run_with_gui_spawns by assumption. cbv zeta.
  cbn [environ writes]. rewrite Hchild.
  split; intros Hrc.
  - subst returncode. cbn [Z.eqb ends]. rewrite writes_writes, <- app_assoc.
    reflexivity.
  - apply Z.eqb_neq in Hrc. rewrite Hrc. cbn [ends].
    rewrite writes_writes, <- app_assoc. reflexivity.
Qed.

(** X13. A child that cannot be started for another reason than a missing
    file (no permission to execute it, another error of the operating
    system) ends the run with that exception unhandled, in Visual Mode as in
    Terminal Mode: the launcher prints no diagnostic after its banner. *)
Theorem start_error_is_unhandled
    (stdin rest : list key_event) (st st1 : state) (k s : str) (e : exn) :
  check_api_key h stdin st = (Ret (k, Line s :: rest), st1) ->
  let asked := writes (menu_text ++ choice_prompt) st1 in
  (strip s = lit "1" ->
   path_exists h (venv_dir h) = true -> path_exists h (pipedream_exe h) = true ->
   start_error (spawn h (gui_cmd h) (environ st1)) = Some e ->
   run h stdin st = (Unhandled e, launches (gui_cmd h) (writes gui_banner asked)))
  /\ (strip s = lit "2" ->
      path_exists h (cli_script h) = true ->
      start_error (spawn h (cli_cmd h) (environ st1)) = Some e ->
      run h stdin st = (Unhandled e, launches (cli_cmd h) (writes cli_banner asked))).
Proof.
  intros Hgate. cbv zeta. rewrite (run_after_gate h _ _ _ _ _ Hgate). split.
  - intros Hs Hv He Hchild.
    rewrite menu_loop_gui, run_with_gui_spawns by assumption. cbv zeta.
    cbn [environ writes].
    destruct (spawn h (gui_cmd h) (environ st1)); try discriminate;
      injection Hchild as <-; reflexivity.
  - intros Hs Hc Hchild.
    rewrite menu_loop_cli, run_cli_spawns by assumption. cbv zeta.
    cbn [environ writes].
    destruct (spawn h (cli_cmd h) (environ st1)); try discriminate;
      injection Hchild as <-; reflexivity.
Qed.

End Runs.

Lemma other_variables_untouched_witness :
  let st := State {[ lit "PATH" := lit "/usr/bin" ]} [] [] in
  let r := run (demo_host everything_present (Exited 0))
             [Line (lit "AIza1234"); Line (lit "2")] st in
  environ (snd r) !! GEMINI_API_KEY = Some (lit "AIza1234")
  /\ environ (snd r) !! lit "PATH" = Some (lit "/usr/bin").
Proof.
  cbv zeta. split; [vm_compute; reflexivity |].
  rewrite (other_variables_untouched (demo_host everything_present (Exited 0))).
  - vm_compute. reflexivity.
  - discriminate.
Defined.

Lemma child_is_launched_with_key_witness :
  let r := run (demo_host everything_present (Exited 0))
             [Line (lit "oops"); Line (lit "AIzaSyD"); Line (lit "2")] fresh in
  launched (snd r) = [[lit "/usr/bin/python3"; lit "/game/pytrek_cli.py"]]
  /\ has_api_key (snd r).
Proof.
  cbv zeta. split; [vm_compute; reflexivity |].
  apply (child_is_launched_with_key (demo_host everything_present (Exited 0))).
  vm_compute. discriminate.
Defined.


Lemma preset_key_environment_kept_witness :
  environ (snd (run (demo_host everything_present (Exited 0))
                  [Line (lit "2")] keyed))
  = {[ GEMINI_API_KEY := lit "AIzaSy" ]}.
Proof.
  apply (preset_key_environment_kept (demo_host everything_present (Exited 0))
           [Line (lit "2")] keyed).
  exists 65, (lit "IzaSy"). vm_compute. reflexivity.
Defined.

Lemma end_of_input_is_unhandled_witness :
  let h := demo_host everything_present (Exited 0) in
  fst (run h [] fresh) = Unhandled EOFError
  /\ fst (run h [Line (lit "hello")] fresh) = Unhandled EOFError
  /\ fst (run h [Line (lit "AIza1234"); Line (lit "4")] fresh) = Unhandled EOFError.
Proof.
  cbv zeta. split; [| split].
  - destruct (end_of_input_is_unhandled (demo_host everything_present (Exited 0))
                [] [] fresh fresh []) as [H _].
    cbn [map] in H. rewrite H.
    + reflexivity.
    + left. reflexivity.
    + constructor.
  - destruct (end_of_input_is_unhandled (demo_host everything_present (Exited 0))
                [] [lit "hello"] fresh fresh []) as [H _].
    cbn [map] in H. rewrite H.
    + reflexivity.
    + left. reflexivity.
    + repeat constructor.
  - destruct (end_of_input_is_unhandled (demo_host everything_present (Exited 0))
                [Line (lit "AIza1234"); Line (lit "4")] [lit "4"] fresh
                (snd (check_api_key (demo_host everything_present (Exited 0))
                        [Line (lit "AIza1234")] fresh))
                (lit "AIza1234")) as [_ H].
    rewrite H.
    + reflexivity.
    + vm_compute. reflexivity.
    + repeat constructor; discriminate.
Defined.

Lemma visual_mode_follows_child_status_witness :
  fst (run (demo_host everything_present (Exited 0)) [Line (lit "1")] keyed)
  = ExitStatus 0
  /\ run (demo_host everything_present (Exited (-9))) [Line (lit " 1")] keyed
     = (ExitStatus 1,
        State (environ keyed)
              (menu_text ++ choice_prompt ++ gui_banner
               ++ gui_failed_text (demo_host everything_present (Exited (-9))) (-9))
              [[lit "/game/.venv/bin/pipedream-gui"; lit "--art-style";
                lit "StarTrek sci-fi game, orange monochrome"; lit "bash";
                lit "/game/pytrek-9000.sh"]]).
Proof.
  assert (Hgate : forall h s, check_api_key h [Line s] keyed
                              = (Ret (lit "AIzaSy", [Line s]), keyed)).
  { intros h s. apply check_api_key_present. vm_compute. reflexivity. }
  split.
  - destruct (visual_mode_follows_child_status
                (demo_host everything_present (Exited 0)) _ _ _ _ _ _ 0%Z
                (Hgate _ (lit "1")))
      as (_ & H & _); [reflexivity | reflexivity | reflexivity | reflexivity |].
    rewrite H by reflexivity. reflexivity.
  - destruct (visual_mode_follows_child_status
                (demo_host everything_present (Exited (-9))) _ _ _ _ _ _ (-9)%Z
                (Hgate _ (lit " 1")))
      as (_ & _ & H); [reflexivity | reflexivity | reflexivity | reflexivity |].
    rewrite H by discriminate. reflexivity.
Defined.

(** A pipedream-gui that is there but may not be executed, and an interpreter
    the operating system refuses to start. *)
Lemma start_error_is_unhandled_witness :
  fst (run (demo_host everything_present Denied) [Line (lit "1")] keyed)
  = Unhandled PermissionError
  /\ fst (run (demo_host everything_present (Failed 8)) [Line (lit "2")] keyed)
     = Unhandled (OSError 8).
Proof.
  assert (Hgate : forall h s, check_api_key h [Line s] keyed
                              = (Ret (lit "AIzaSy", [Line s]), keyed)).
  { intros h s. apply check_api_key_present. vm_compute. reflexivity. }
  split.
  - destruct (start_error_is_unhandled (demo_host everything_present Denied)
                _ _ _ _ _ _ PermissionError (Hgate _ (lit "1"))) as [H _].
    rewrite H; reflexivity.
  - destruct (start_error_is_unhandled (demo_host everything_present (Failed 8))
                _ _ _ _ _ _ (OSError 8) (Hgate _ (lit "2"))) as [_ H].
    rewrite H; reflexivity.
Defined.
